(** * pystruct/plot_learning.py: curve selection and alignment

    A shallow embedding of [plot_learning] and of the batch driver [main]
    of [pystruct/plot_learning.py], and the properties of the optimisation
    curves they hand to the plotting backend.

    Conventions of the embedding.
    - Python numbers (the [int]s of [np.arange], the [float]s of the logged
      curves) are exact rationals, [Qc]; [/ 60.] is rational division.
    - A learner object is a record of optional attributes: [hasattr] is a
      test on [Some], reading a missing attribute raises [AttributeError].
    - Calls on matplotlib Axes objects are recorded, in order, in a trace of
      events; an exception ends the run and keeps the events emitted so far.
      Text written to stdout by [print] is not recorded, but the arguments
      of [print] are evaluated, since they can raise. *)

From Stdlib Require Import List String Ascii Bool Arith ZArith Lia.
From Stdlib Require Import QArith Qcanon.
Import ListNotations.

Local Open Scope string_scope.
Local Open Scope list_scope.
Local Open Scope nat_scope.

(** ** Values *)

Definition num : Type := Qc.

Definition of_Z (z : Z) : num := Q2Qc (inject_Z z).
Definition of_nat (n : nat) : num := of_Z (Z.of_nat n).

(** The fraction [n / d], in lowest terms. *)
Definition frac (n : Z) (d : positive) : num := Q2Qc (n # d).

(** Exceptions raised by the interpreter, numpy and matplotlib. *)
Inductive exn : Type :=
| AttributeError (attr : string)
| IndexError
| ValueError
| TypeError.

(** The x-axis is either a Python list (a logged attribute may be one) or a
    numpy array; the two differ under boolean-mask indexing. *)
Inductive pyseq : Type :=
| PyList (xs : list num)
| NdArray (xs : list num).

Definition items (s : pyseq) : list num :=
  match s with PyList xs | NdArray xs => xs end.

(** The learner object, with the attributes [plot_learning] probes. *)
#[warnings="-register-all"]
Inductive learner : Type := Learner {
  iterations_ : option pyseq;
  dual_objective_curve_ : option (list num);
  primal_objective_curve_ : option (list num);
  loss_curve_ : option (list num);
  show_loss_every : option Z;
  timestamps_ : option (list num);
  cached_constraint_ : option (list bool);
  base_ssvm : option learner
}.

(** What the [axes] argument and the elements of an axes list can be: one
    Axes object (identified by its panel number), or an array of them, as
    [plt.subplots(1, n)] returns for [n > 1]. *)
Inductive pyobj : Type :=
| Axes (panel : nat)
| AxesArray (panels : list nat).

Inductive axes_arg : Type :=
| AxesNone
| AxesList (l : list pyobj)
| AxesObj (o : pyobj).

(** Calls on an Axes object. [Plot x y fmt label] is [ax.plot(x, y, fmt,
    label=label)]. *)
Inductive call : Type :=
| SetXLabel (s : string)
| SetTitle (s : string)
| SetYScale (s : string)
| Plot (x y : list num) (fmt : option string) (label : option string)
| Legend (loc : string).

Definition event : Type := (nat * call)%type.

(** ** The monad: a trace of events and a result or an exception *)

Definition M (A : Type) : Type := (list event * (exn + A))%type.

Definition ret {A} (a : A) : M A := ([], inr a).
Definition raise {A} (e : exn) : M A := ([], inl e).
Definition emit (ev : event) : M unit := ([ev], inr tt).

Definition bind {A B} (m : M A) (f : A -> M B) : M B :=
  match m with
  | (t, inl e) => (t, inl e)
  | (t, inr a) => let (t', r) := f a in (t ++ t', r)
  end.

(** [try: m except: h] with a bare [except]. *)
Definition try_except {A} (m : M A) (h : M A) : M A :=
  match m with
  | (t, inl _) => let (t', r) := h in (t ++ t', r)
  | (t, inr a) => (t, inr a)
  end.

Notation "x <- m ;; k" := (bind m (fun x => k))
  (at level 61, m at next level, right associativity).
Notation "m ;;; k" := (bind m (fun _ => k))
  (at level 61, right associativity).

Definition trace {A} (m : M A) : list event := fst m.
Definition outcome {A} (m : M A) : exn + A := snd m.

Definition fails {A} (m : M A) : Prop := exists e, outcome m = inl e.
Definition succeeds {A} (m : M A) : Prop := exists a, outcome m = inr a.

(** ** numpy and the interpreter *)

(** [getattr]: reading an attribute that may be missing. *)
Definition getattr {A} (name : string) (v : option A) : M A :=
  match v with
  | Some a => ret a
  | None => raise (AttributeError name)
  end.

Definition hasattr {A} (v : option A) : bool :=
  match v with Some _ => true | None => false end.

(** [np.arange(n)] *)
Definition arange (n : nat) : list num := map of_nat (seq 0 n).

(** [xs[-1]] *)
Definition last_item (xs : list num) : M num :=
  match rev xs with
  | [] => raise IndexError
  | x :: _ => ret x
  end.

Definition num_max (a b : num) : num := if Qle_bool a b then b else a.

(** [np.max(xs)]: a [ValueError] on an empty sequence. *)
Definition np_max (xs : list num) : M num :=
  match xs with
  | [] => raise ValueError
  | x :: xs' => ret (fold_left num_max xs' x)
  end.

(** [np.any(flags)] *)
Definition np_any (flags : list bool) : bool := existsb (fun b => b) flags.

(** [~np.array(flags)] *)
Definition invert (flags : list bool) : list bool := map negb flags.

(** Every [k]-th element, starting with the one [i] steps ahead. *)
Fixpoint take_every {A} (k i : nat) (xs : list A) : list A :=
  match xs with
  | [] => []
  | x :: xs' =>
      match i with
      | O => x :: take_every k (k - 1) xs'
      | S i' => take_every k i' xs'
      end
  end.

(** [xs[::k]]: a zero step is a [ValueError], a negative one walks back
    from the last element. *)
Definition stride {A} (k : Z) (xs : list A) : M (list A) :=
  match k with
  | Z0 => raise ValueError
  | Zpos p => ret (take_every (Pos.to_nat p) 0 xs)
  | Zneg p => ret (take_every (Pos.to_nat p) 0 (rev xs))
  end.

Definition stride_seq (k : Z) (s : pyseq) : M pyseq :=
  match s with
  | PyList xs => xs' <- stride k xs ;; ret (PyList xs')
  | NdArray xs => xs' <- stride k xs ;; ret (NdArray xs')
  end.

(** The elements of [xs] at which [mask] is true. *)
Fixpoint compress {A} (mask : list bool) (xs : list A) : list A :=
  match mask, xs with
  | b :: mask', x :: xs' =>
      if b then x :: compress mask' xs' else compress mask' xs'
  | _, _ => []
  end.

(** [arr[mask]] for a numpy array [arr] and a boolean array [mask]: the
    lengths must agree. *)
Definition mask_index {A} (mask : list bool) (xs : list A) : M (list A) :=
  if Nat.eqb (List.length mask) (List.length xs) then ret (compress mask xs)
  else raise IndexError.

(** [s[mask]]: a Python list cannot be indexed by an array. *)
Definition mask_index_seq (mask : list bool) (s : pyseq) : M (list num) :=
  match s with
  | PyList _ => raise TypeError
  | NdArray xs => mask_index mask xs
  end.

(** [s[:-7]] *)
Definition drop_last7 (s : string) : string :=
  substring 0 (String.length s - 7) s.

(** ** matplotlib *)

(** [plt.subplots(1, n)]: one Axes for [n = 1], an array of Axes otherwise. *)
Definition subplots (n : nat) : pyobj :=
  if Nat.eqb n 1 then Axes 0 else AxesArray (seq 0 n).

(** [axes[i].method]: the index must be in range and the element must be an
    Axes object for the method to be found. *)
Definition axes_method (axes : list pyobj) (i : nat) (method : string) : M nat :=
  match nth_error axes i with
  | None => raise IndexError
  | Some (Axes p) => ret p
  | Some (AxesArray _) => raise (AttributeError method)
  end.

(** [ax.plot(x, y, fmt, label=label)]: x and y must have the same length. *)
Definition plot (ax : nat) (x y : list num) (fmt label : option string) : M unit :=
  if Nat.eqb (List.length x) (List.length y) then emit (ax, Plot x y fmt label)
  else raise ValueError.

(** [ax.plot(y)]: y against its indices. *)
Definition plot_y (ax : nat) (y : list num) : M unit :=
  emit (ax, Plot (arange (List.length y)) y None None).

(** ** plot_learning *)

(** Lines 67-68: one level of unwrapping. *)
Definition unwrap (ssvm : learner) : learner :=
  match base_ssvm ssvm with
  | Some inner => inner
  | None => ssvm
  end.

(** Lines 70-78: the iteration axis, and the report of the last objective
    value when the axis is synthesised. *)
Definition iteration_axis (ssvm : learner) : M pyseq :=
  match iterations_ ssvm with
  | Some its => ret its
  | None =>
      match dual_objective_curve_ ssvm with
      | Some dual =>
          let iterations := NdArray (arange (List.length dual)) in
          last_item dual ;;;
          ret iterations
      | None =>
          primal <- getattr "primal_objective_curve_" (primal_objective_curve_ ssvm) ;;
          let iterations := NdArray (arange (List.length primal)) in
          last_item primal ;;;
          ret iterations
      end
  end.

(** Lines 81-85: the inference mask, absent unless some constraint was
    cached. *)
Definition inference_run (ssvm : learner) : option (list bool) :=
  match cached_constraint_ ssvm with
  | Some flags => if np_any flags then Some (invert flags) else None
  | None => None
  end.

(** Lines 86-89. *)
Definition n_plots (ssvm : learner) : nat :=
  if hasattr (loss_curve_ ssvm) then 2 else 1.

(** Lines 90-93: the list of axes to draw on. *)
Definition resolve_axes (axes : axes_arg) (n : nat) : list pyobj :=
  match axes with
  | AxesNone => [subplots n]
  | AxesList l => l
  | AxesObj o => [o]
  end.

Definition time_label (time : bool) : string :=
  if time then "training time (min)" else "Passes through training data".

(** Lines 96-97: wall-clock minutes, the start marker dropped. *)
Definition minutes (timestamps : list num) : list num :=
  map (fun t => (t / of_Z 60)%Qc) (tl timestamps).

(** Lines 95-101: the shared x-axis and the label of the objective panel. *)
Definition x_axis (ssvm : learner) (time : bool) (iterations : pyseq)
    (axes : list pyobj) : M pyseq :=
  if time then
    timestamps <- getattr "timestamps_" (timestamps_ ssvm) ;;
    let inds := NdArray (minutes timestamps) in
    ax <- axes_method axes 0 "set_xlabel" ;;
    emit (ax, SetXLabel "training time (min)") ;;;
    ret inds
  else
    ax <- axes_method axes 0 "set_xlabel" ;;
    emit (ax, SetXLabel "Passes through training data") ;;;
    ret iterations.

(** Lines 104-106: the dual objective, dashed, on a log scale. *)
Definition plot_dual (ssvm : learner) (ax : nat) (prefix : string)
    (inds : pyseq) : M unit :=
  match dual_objective_curve_ ssvm with
  | Some dual =>
      plot ax (items inds) dual (Some "--") (Some (prefix ++ "dual objective")%string) ;;;
      emit (ax, SetYScale "log")
  | None => ret tt
  end.

(** Lines 109-110: the label of the primal curve. *)
Definition primal_label (prefix : string) (mask : option (list bool)) : string :=
  match mask with
  | Some _ => (prefix ++ "cached primal objective")%string
  | None => (prefix ++ "primal objective")%string
  end.

(** Lines 107-110: the primal objective, as a solid line. *)
Definition plot_primal (ssvm : learner) (ax : nat) (prefix : string)
    (inds : pyseq) (mask : option (list bool)) : M unit :=
  match primal_objective_curve_ ssvm with
  | Some primal =>
      plot ax (items inds) primal None (Some (primal_label prefix mask))
  | None => ret tt
  end.

(** Line 112: the mask cut to the length of the dual curve. *)
Definition truncate_mask (ssvm : learner) (mask : list bool) : M (list bool) :=
  dual <- getattr "dual_objective_curve_" (dual_objective_curve_ ssvm) ;;
  ret (firstn (List.length dual) mask).

(** Lines 111-115: markers at the steps where inference was run. *)
Definition plot_inference_runs (ssvm : learner) (ax : nat) (prefix : string)
    (inds : pyseq) (mask : option (list bool)) : M unit :=
  match mask with
  | Some run =>
      run' <- truncate_mask ssvm run ;;
      x <- mask_index_seq run' inds ;;
      primal <- getattr "primal_objective_curve_" (primal_objective_curve_ ssvm) ;;
      y <- mask_index run' primal ;;
      plot ax x y (Some "o") (Some (prefix ++ "primal")%string)
  | None => ret tt
  end.

(** Lines 123-126: the training error against the subsampled x-axis, or
    against its own indices when that call raises. *)
Definition plot_loss (ssvm : learner) (ax : nat) (inds : pyseq) : M unit :=
  try_except
    (k <- getattr "show_loss_every" (show_loss_every ssvm) ;;
     x <- stride_seq k inds ;;
     loss <- getattr "loss_curve_" (loss_curve_ ssvm) ;;
     plot ax (items x) loss None None)
    (loss <- getattr "loss_curve_" (loss_curve_ ssvm) ;;
     plot_y ax loss).

(** Lines 117-129: the error panel. *)
Definition error_panel (ssvm : learner) (time : bool) (n : nat)
    (axes : list pyobj) (inds : pyseq) : M unit :=
  if Nat.eqb n 2 then
    ax <- axes_method axes 1 "set_xlabel" ;;
    emit (ax, SetXLabel (time_label time)) ;;;
    plot_loss ssvm ax inds ;;;
    emit (ax, SetTitle "Training Error") ;;;
    emit (ax, SetYScale "log")
  else ret tt.

(** Lines 103-116: the objective panel. *)
Definition objective_panel (ssvm : learner) (ax : nat) (prefix : string)
    (inds : pyseq) (mask : option (list bool)) : M unit :=
  emit (ax, SetTitle "Objective") ;;;
  plot_dual ssvm ax prefix inds ;;;
  plot_primal ssvm ax prefix inds mask ;;;
  plot_inference_runs ssvm ax prefix inds mask ;;;
  emit (ax, Legend "best").

Definition plot_learning (ssvm0 : learner) (time : bool) (axes0 : axes_arg)
    (prefix : string) : M (list pyobj) :=
  let ssvm := unwrap ssvm0 in
  iterations <- iteration_axis ssvm ;;
  np_max (items iterations) ;;;
  let mask := inference_run ssvm in
  let n := n_plots ssvm in
  let axes := resolve_axes axes0 n in
  inds <- x_axis ssvm time iterations axes ;;
  ax <- axes_method axes 0 "set_title" ;;
  objective_panel ssvm ax prefix inds mask ;;;
  error_panel ssvm time n axes inds ;;;
  ret axes.

(** ** main *)

(** Lines 27-30: the number of panels of the batch. *)
Definition main_n_plots (ssvms : list learner) : nat :=
  if existsb (fun ssvm => hasattr (loss_curve_ ssvm)) ssvms then 2 else 1.

(** Lines 33-35. *)
Definition legend_prefix (n_ssvms : nat) (file_name : string) : string :=
  if Nat.ltb 1 n_ssvms then (drop_last7 file_name ++ " ")%string else "".

(** Lines 32-36: one call of [plot_learning] per loaded learner, all on
    the axes of the batch. *)
Fixpoint plot_all (n_ssvms : nat) (axes : pyobj) (time : bool)
    (loaded : list (learner * string)) : M unit :=
  match loaded with
  | [] => ret tt
  | (ssvm, file_name) :: rest =>
      plot_learning ssvm time (AxesObj axes) (legend_prefix n_ssvms file_name) ;;;
      plot_all n_ssvms axes time rest
  end.

(** Lines 27-36 of [main], from the loaded learners on: [loaded] pairs each
    learner with the name of its file, as [zip(ssvms, args.pickles)]. *)
Definition main (loaded : list (learner * string)) (time : bool) : M unit :=
  let ssvms := map fst loaded in
  let axes := subplots (main_n_plots ssvms) in
  plot_all (List.length ssvms) axes time loaded.

(** ** Observations on runs and on labels *)

(** Every event of a run satisfies [P]. *)
Definition emits_only {A} (P : event -> Prop) (m : M A) : Prop :=
  Forall P (trace m).

(** The marker-only plot commands. *)
Definition is_marker (ev : event) : Prop :=
  exists x y label, snd ev = Plot x y (Some "o") label.

(** Equality of sequences of numbers, decided on their values. *)
Fixpoint nums_eqb (xs ys : list num) : bool :=
  match xs, ys with
  | [], [] => true
  | x :: xs', y :: ys' => Qeq_bool x y && nums_eqb xs' ys'
  | _, _ => false
  end.

(** [s.startswith(sub)] *)
Fixpoint starts_with (sub s : string) : bool :=
  match sub with
  | EmptyString => true
  | String a sub' =>
      match s with
      | EmptyString => false
      | String b s' => Ascii.eqb a b && starts_with sub' s'
      end
  end.

(** [sub in s] *)
Fixpoint contains (sub s : string) : bool :=
  starts_with sub s ||
  match s with
  | EmptyString => false
  | String _ s' => contains sub s'
  end.

(** The character [c] occurs in [s]. *)
Fixpoint occurs (c : ascii) (s : string) : bool :=
  match s with
  | EmptyString => false
  | String a s' => Ascii.eqb a c || occurs c s'
  end.

(** ** Learners used as examples *)

(** An empty dual curve is selected by [hasattr], and reading its last
    element for the report raises. *)
Definition empty_dual : learner :=
  Learner None (Some []) (Some [of_Z 5]) None None None None None.

Definition three_steps : learner :=
  Learner None (Some (map of_Z [10; 8; 6]%Z)) (Some (map of_Z [20; 15; 11]%Z))
    None None None (Some [false; true; false]) None.

Definition timed (timestamps : list Z) : learner :=
  Learner None (Some (map of_Z [10; 8; 6]%Z)) (Some (map of_Z [20; 15; 11]%Z))
    None None (Some (map of_Z timestamps)) None None.

(** Flags logged for one step more than the dual curve has. *)
Definition long_flags : learner :=
  Learner None (Some (map of_Z [10; 8]%Z)) (Some (map of_Z [20; 15]%Z))
    None None None (Some [false; true; false]) None.

Definition never_cached : learner :=
  Learner None (Some (map of_Z [10; 8; 6]%Z)) (Some (map of_Z [20; 15; 11]%Z))
    None None None (Some [false; false; false]) None.

(** A learner that logged cache hits and the primal objective only. *)
Definition primal_only : learner :=
  Learner None None (Some (map of_Z [20; 15; 11]%Z)) None None None
    (Some [false; true; false]) None.

(** Five loss values logged with stride 2 over eight steps. *)
Definition irregular_loss : learner :=
  Learner None (Some (map of_Z [9; 8; 7; 6; 5; 4; 3; 2]%Z)) None
    (Some (map of_Z [5; 4; 3; 2; 1]%Z)) (Some 2%Z) None None None.

(** A wrapper that carries no curves of its own around a learner that
    logged its training loss. *)
Definition logged_loss : learner :=
  Learner None (Some (map of_Z [10; 8; 6]%Z)) None
    (Some (map of_Z [3; 2; 1]%Z)) (Some 1%Z) None None None.

Definition latent : learner :=
  Learner None None None None None None None (Some logged_loss).

(** An event is a call on the first or on the second element of [axes]. *)
Definition on_axes (axes : list pyobj) (ev : event) : Prop :=
  nth_error axes 0 = Some (Axes (fst ev)) \/
  nth_error axes 1 = Some (Axes (fst ev)).

(** The traces of a batch, one after the other. *)
Definition batch_traces (n_ssvms : nat) (axes : pyobj) (time : bool)
    (loaded : list (learner * string)) : list event :=
  List.concat
    (map (fun lf =>
            trace (plot_learning (fst lf) time (AxesObj axes)
                     (legend_prefix n_ssvms (snd lf))))
       loaded).

(** The marker command of the overlay step, when there is a mask. *)
Definition overlay_events (ax : nat) (prefix : string) (x dual primal : list num)
    (mask : option (list bool)) : list event :=
  match mask with
  | Some run =>
      [(ax, Plot (compress (firstn (List.length dual) run) x)
              (compress (firstn (List.length dual) run) primal)
              (Some "o") (Some (prefix ++ "primal")%string))]
  | None => []
  end.

(** The calls that draw the dual and the primal curve over [x]. *)
Definition objective_events (ax : nat) (prefix : string) (x dual primal : list num)
    (mask : option (list bool)) : list event :=
  [(ax, SetTitle "Objective");
   (ax, Plot x dual (Some "--") (Some (prefix ++ "dual objective")%string));
   (ax, SetYScale "log");
   (ax, Plot x primal None (Some (primal_label prefix mask)))]
  ++ overlay_events ax prefix x dual primal mask
  ++ [(ax, Legend "best")].

(** A learner that logged its training loss and nothing else. *)
Definition loss_only : learner :=
  Learner None None None (Some (map of_Z [3; 2; 1]%Z)) (Some 1%Z) None None
    None.

(** A solver that recorded no step in [iterations_]. *)
Definition no_step : learner :=
  Learner (Some (PyList [])) (Some (map of_Z [10; 8; 6]%Z)) None None None
    None None None.

(** Dual and primal curves, no cache flags and no loss curve. *)
Definition plain : learner :=
  Learner None (Some (map of_Z [10; 8; 6]%Z)) (Some (map of_Z [20; 15; 11]%Z))
    None None (Some (map of_Z [0; 10; 70; 130]%Z)) None None.

(** Dual, primal and loss curves, logged at every step. *)
Definition with_loss : learner :=
  Learner None (Some (map of_Z [10; 8; 6]%Z)) (Some (map of_Z [20; 15; 11]%Z))
    (Some (map of_Z [3; 2; 1]%Z)) (Some 1%Z) None None None.

(** A subgradient-style learner: the primal objective only. *)
Definition primal_curve : learner :=
  Learner None None (Some (map of_Z [20; 15; 11]%Z)) None None None None None.

(** A solver that logged the passes at which it evaluated the objective. *)
Definition warm_started : learner :=
  Learner (Some (NdArray (map of_Z [5; 7; 9]%Z)))
    (Some (map of_Z [10; 8; 6]%Z)) None None None None None None.

(** One cache flag logged over three steps. *)
Definition short_flags : learner :=
  Learner None (Some (map of_Z [10; 8; 6]%Z)) (Some (map of_Z [20; 15; 11]%Z))
    None None None (Some [true]) None.

(** A loss curve logged without a stride attribute. *)
Definition no_stride : learner :=
  Learner None (Some (map of_Z [10; 8; 6]%Z)) None
    (Some (map of_Z [3; 2; 1]%Z)) None (Some (map of_Z [0; 10; 70; 130]%Z))
    None None.

(** * Properties *)

(** ** Numbers and sequences *)

Lemma num_eq (a b : num) : Qeq_bool a b = true -> a = b.
Proof.
  intro H. apply Qc_is_canon. now apply Qeq_bool_iff.
Qed.

Lemma nums_eqb_eq (xs ys : list num) : nums_eqb xs ys = true -> xs = ys.
Proof.
  revert ys. induction xs as [|x xs IH]; intros [|y ys] H;
    try discriminate; [reflexivity|].
  simpl in H. apply andb_prop in H as [Hx Hxs].
  f_equal; [now apply num_eq | now apply IH].
Qed.

Lemma length_arange (n : nat) : List.length (arange n) = n.
Proof.
  unfold arange. now rewrite length_map, length_seq.
Qed.

Lemma nth_error_arange (n i : nat) :
  i < n -> nth_error (arange n) i = Some (of_nat i).
Proof.
  intro H. unfold arange.
  rewrite nth_error_map, nth_error_seq.
  destruct (Nat.ltb_spec i n); [reflexivity | lia].
Qed.

Lemma last_item_nonempty (xs : list num) :
  xs <> [] -> exists x, last_item xs = ret x.
Proof.
  intro H. unfold last_item.
  destruct (rev xs) as [|x r] eqn:E.
  - apply (f_equal (@rev num)) in E. rewrite rev_involutive in E. now subst.
  - now exists x.
Qed.

(** [compress] keeps the elements paired with a true mask entry. *)
Lemma compress_filter {A} (mask : list bool) (xs : list A) :
  compress mask xs = map snd (filter fst (combine mask xs)).
Proof.
  revert xs. induction mask as [|b mask IH]; intros [|x xs];
    try reflexivity.
  simpl. destruct b; simpl; now rewrite IH.
Qed.

Lemma length_compress {A B} (mask : list bool) (xs : list A) (ys : list B) :
  List.length xs = List.length mask -> List.length ys = List.length mask ->
  List.length (compress mask xs) = List.length (compress mask ys).
Proof.
  revert xs ys. induction mask as [|b mask IH]; intros xs ys Hx Hy.
  - reflexivity.
  - destruct xs as [|x xs]; [discriminate|].
    destruct ys as [|y ys]; [discriminate|].
    injection Hx as Hx. injection Hy as Hy.
    destruct b; simpl; now rewrite (IH xs ys).
Qed.

(** [take_every k i xs] holds the elements of [xs] at the indices
    [i, i + k, i + 2k, ...]. *)
Lemma nth_error_take_every {A} (k : nat) (xs : list A) :
  1 <= k ->
  forall i j, nth_error (take_every k i xs) j = nth_error xs (i + j * k).
Proof.
  intro Hk. induction xs as [|x xs IH]; intros i j.
  - simpl. now rewrite !nth_error_nil.
  - destruct i as [|i]; simpl.
    + destruct j as [|j]; [reflexivity|].
      simpl. rewrite IH.
      replace (k + j * k) with (S (k - 1 + j * k)) by lia.
      reflexivity.
    + apply IH.
Qed.

Lemma length_take_every {A} (k : nat) (xs : list A) :
  1 <= k ->
  forall j, j < List.length (take_every k 0 xs) <-> j * k < List.length xs.
Proof.
  intros Hk j.
  rewrite <- !nth_error_Some, (nth_error_take_every k xs Hk 0 j).
  reflexivity.
Qed.

(** ** Reasoning about runs *)

Section Runs.
Context {A B : Type}.

Lemma bind_ret_l (a : A) (f : A -> M B) : bind (ret a) f = f a.
Proof.
  unfold bind, ret. now destruct (f a).
Qed.

Lemma fails_raise (e : exn) : fails (@raise A e).
Proof. now exists e. Qed.

Lemma fails_bind_l (m : M A) (f : A -> M B) : fails m -> fails (bind m f).
Proof.
  intros [e He]. exists e.
  destruct m as [t r]. simpl in He. now subst r.
Qed.

Lemma fails_bind_r (m : M A) (f : A -> M B) :
  (forall a, fails (f a)) -> fails (bind m f).
Proof.
  intro H. destruct m as [t [e | a]].
  - now exists e.
  - destruct (H a) as [e He]. exists e.
    unfold bind, outcome in *. now destruct (f a).
Qed.

Lemma trace_bind_nil (m : M A) (f : A -> M B) :
  trace m = [] -> (forall a, trace (f a) = []) -> trace (bind m f) = [].
Proof.
  intros Hm Hf. destruct m as [t [e | a]]; simpl in *; subst t.
  - reflexivity.
  - specialize (Hf a). unfold trace in Hf. now destruct (f a).
Qed.

Lemma emits_only_bind (P : event -> Prop) (m : M A) (f : A -> M B) :
  emits_only P m -> (forall a, emits_only P (f a)) ->
  emits_only P (bind m f).
Proof.
  unfold emits_only, trace. intros Hm Hf.
  destruct m as [t [e | a]]; simpl in *; [assumption|].
  specialize (Hf a). destruct (f a) as [t' r]. simpl in *.
  apply Forall_app. now split.
Qed.

Lemma emits_only_try (P : event -> Prop) (m h : M A) :
  emits_only P m -> emits_only P h -> emits_only P (try_except m h).
Proof.
  unfold emits_only, trace. intros Hm Hh.
  destruct m as [t [e | a]]; simpl in *; [|assumption].
  destruct h as [t' r]. simpl in *. apply Forall_app. now split.
Qed.

Lemma emits_only_ret (P : event -> Prop) (a : A) : emits_only P (ret a).
Proof. constructor. Qed.

Lemma emits_only_raise (P : event -> Prop) (e : exn) :
  emits_only P (@raise A e).
Proof. constructor. Qed.

Lemma emits_only_getattr (P : event -> Prop) (name : string) (v : option A) :
  emits_only P (getattr name v).
Proof. destruct v; constructor. Qed.

End Runs.

Lemma emits_only_emit (P : event -> Prop) (ev : event) :
  P ev -> emits_only P (emit ev).
Proof. intro H. now repeat constructor. Qed.

Lemma emits_only_silent {A} (P : event -> Prop) (m : M A) :
  trace m = [] -> emits_only P m.
Proof. unfold emits_only. intros ->. constructor. Qed.

Lemma emits_only_plot (P : event -> Prop) ax x y fmt label :
  P (ax, Plot x y fmt label) -> emits_only P (plot ax x y fmt label).
Proof.
  intro H. unfold plot. destruct (Nat.eqb _ _).
  - now apply emits_only_emit.
  - apply emits_only_raise.
Qed.

(** ** Steps that draw nothing *)

Lemma trace_last_item (xs : list num) : trace (last_item xs) = [].
Proof. unfold last_item. now destruct (rev xs). Qed.

Lemma trace_np_max (xs : list num) : trace (np_max xs) = [].
Proof. now destruct xs. Qed.

Lemma trace_getattr {A} (name : string) (v : option A) :
  trace (getattr name v) = [].
Proof. now destruct v. Qed.

Lemma trace_axes_method (axes : list pyobj) (i : nat) (method : string) :
  trace (axes_method axes i method) = [].
Proof.
  unfold axes_method. now destruct (nth_error axes i) as [[p | ps]|].
Qed.

Lemma trace_iteration_axis (ssvm : learner) : trace (iteration_axis ssvm) = [].
Proof.
  unfold iteration_axis.
  destruct (iterations_ ssvm); [reflexivity|].
  destruct (dual_objective_curve_ ssvm).
  - apply trace_bind_nil; [apply trace_last_item | reflexivity].
  - apply trace_bind_nil; [apply trace_getattr | intro primal].
    apply trace_bind_nil; [apply trace_last_item | reflexivity].
Qed.

Lemma trace_stride_seq (k : Z) (s : pyseq) : trace (stride_seq k s) = [].
Proof. now destruct s, k. Qed.

(** ** Where markers are drawn, and where a run fails *)

Lemma not_marker_other (ax : nat) (c : call) :
  (forall x y label, c <> Plot x y (Some "o") label) -> ~ is_marker (ax, c).
Proof.
  intros H (x & y & label & E). exact (H x y label E).
Qed.

(** One step through a run that is claimed to emit only events of some
    kind: silent steps, then the monad's combinators. *)
Ltac emits_step :=
  first
    [ apply emits_only_ret
    | apply emits_only_raise
    | apply emits_only_getattr
    | apply emits_only_silent;
      first [ apply trace_iteration_axis | apply trace_np_max
            | apply trace_axes_method | apply trace_stride_seq ]
    | apply emits_only_try
    | apply emits_only_bind; [|intro] ].

(** Only the overlay step (lines 111-115) can draw markers. *)
Lemma no_marker_outside_overlay ssvm0 time axes prefix :
  (forall ax inds,
      emits_only (fun ev => ~ is_marker ev)
        (plot_inference_runs (unwrap ssvm0) ax prefix inds
           (inference_run (unwrap ssvm0)))) ->
  emits_only (fun ev => ~ is_marker ev) (plot_learning ssvm0 time axes prefix).
Proof.
  intro Hoverlay. unfold plot_learning.
  set (ssvm := unwrap ssvm0) in *.
  assert (Hemit : forall ax c,
             (forall x y label, c <> Plot x y (Some "o") label) ->
             emits_only (fun ev => ~ is_marker ev) (emit (ax, c))).
  { intros ax c H. apply emits_only_emit. now apply not_marker_other. }
  assert (Hplot : forall ax x y fmt label, fmt <> Some "o" ->
             emits_only (fun ev => ~ is_marker ev) (plot ax x y fmt label)).
  { intros ax x y fmt label H. apply emits_only_plot, not_marker_other.
    intros x' y' l' E. injection E as _ _ E _. contradiction. }
  assert (Hx : forall iterations axes',
             emits_only (fun ev => ~ is_marker ev)
               (x_axis ssvm time iterations axes')).
  { intros iterations axes'. unfold x_axis.
    destruct time; repeat emits_step; now apply Hemit. }
  assert (Hdual : forall ax inds,
             emits_only (fun ev => ~ is_marker ev)
               (plot_dual ssvm ax prefix inds)).
  { intros ax inds. unfold plot_dual.
    destruct (dual_objective_curve_ ssvm); repeat emits_step;
      [now apply Hplot | now apply Hemit]. }
  assert (Hprimal : forall ax inds,
             emits_only (fun ev => ~ is_marker ev)
               (plot_primal ssvm ax prefix inds (inference_run ssvm))).
  { intros ax inds. unfold plot_primal.
    destruct (primal_objective_curve_ ssvm); [now apply Hplot | emits_step]. }
  assert (Herror : forall n axes' inds,
             emits_only (fun ev => ~ is_marker ev)
               (error_panel ssvm time n axes' inds)).
  { intros n axes' inds. unfold error_panel.
    destruct (Nat.eqb n 2); [|emits_step].
    repeat emits_step;
      solve [now apply Hemit | now apply Hplot
            | unfold plot_y; now apply Hemit]. }
  repeat emits_step;
    solve [ now apply Hemit | apply Hx | apply Hdual | apply Hprimal
          | apply Hoverlay | apply Herror ].
Qed.

Lemma no_marker_without_mask ssvm0 time axes prefix :
  inference_run (unwrap ssvm0) = None ->
  emits_only (fun ev => ~ is_marker ev) (plot_learning ssvm0 time axes prefix).
Proof.
  intro Hmask. apply no_marker_outside_overlay. intros ax inds.
  rewrite Hmask. apply emits_only_ret.
Qed.

(** With a mask and no dual curve, the overlay step raises before it
    draws. *)
Lemma plot_inference_runs_without_dual ssvm ax prefix inds run :
  dual_objective_curve_ ssvm = None ->
  plot_inference_runs ssvm ax prefix inds (Some run)
  = raise (AttributeError "dual_objective_curve_").
Proof.
  intro Hdual. unfold plot_inference_runs, truncate_mask.
  now rewrite Hdual.
Qed.

Lemma plot_learning_fails_in_overlay ssvm0 time axes prefix :
  (forall ax inds,
      fails (plot_inference_runs (unwrap ssvm0) ax prefix inds
               (inference_run (unwrap ssvm0)))) ->
  fails (plot_learning ssvm0 time axes prefix).
Proof.
  intro Hoverlay. unfold plot_learning.
  apply fails_bind_r. intro iterations.
  apply fails_bind_r. intros _.
  apply fails_bind_r. intro inds.
  apply fails_bind_r. intro ax.
  apply fails_bind_l. unfold objective_panel.
  apply fails_bind_r. intros _.
  apply fails_bind_r. intros _.
  apply fails_bind_r. intros _.
  apply fails_bind_l, Hoverlay.
Qed.

(** ** Substrings *)

Lemma starts_with_app_l (sub p s : string) :
  starts_with sub p = true -> starts_with sub (p ++ s) = true.
Proof.
  revert p. induction sub as [|a sub IH]; intros p H; [reflexivity|].
  destruct p as [|b p]; [discriminate|].
  simpl in *. apply andb_prop in H as [Hab H].
  now rewrite Hab, IH.
Qed.

Lemma contains_app_r (sub p s : string) :
  contains sub s = true -> contains sub (p ++ s) = true.
Proof.
  intro H. induction p as [|b p IH]; [assumption|].
  simpl. rewrite IH. apply orb_true_r.
Qed.

(** A match of [sub] cannot run from [p] into a text that starts with a
    character foreign to [sub]. *)
Lemma starts_with_app_foreign (sub p : string) (c : ascii) (s : string) :
  occurs c sub = false ->
  starts_with sub (p ++ String c s) = true -> starts_with sub p = true.
Proof.
  revert p. induction sub as [|a sub IH]; intros p Hocc H; [reflexivity|].
  simpl in Hocc. apply orb_false_iff in Hocc as [Hac Hocc].
  destruct p as [|b p]; simpl in *.
  - now rewrite Hac in H.
  - apply andb_prop in H as [Hab H]. now rewrite Hab, IH.
Qed.

Lemma contains_app_foreign (sub p : string) (c : ascii) (s : string) :
  occurs c sub = false ->
  contains sub (p ++ String c s)
  = contains sub p || contains sub (String c s).
Proof.
  intro Hocc. induction p as [|b p IH].
  - destruct (contains sub "") eqn:E; [|reflexivity].
    simpl in E. rewrite orb_false_r in E.
    destruct sub; [reflexivity | discriminate].
  - change (contains sub (String b p ++ String c s))
      with (starts_with sub (String b p ++ String c s)
            || contains sub (p ++ String c s)).
    change (contains sub (String b p))
      with (starts_with sub (String b p) || contains sub p).
    rewrite IH, <- orb_assoc. f_equal.
    destruct (starts_with sub (String b p)) eqn:E.
    + now apply starts_with_app_l.
    + destruct (starts_with sub (String b p ++ String c s)) eqn:E';
        [|reflexivity].
      apply starts_with_app_foreign in E'; [congruence | assumption].
Qed.

(** ** The wall-clock basis without timestamps (lines 95-101) *)




(** ** The number of panels (lines 27-31 and 86-89) *)

(** The panel count of [main] is batch-wide: two panels as soon as one
    loaded object carries a loss curve itself. *)
Lemma main_n_plots_batch_wide (ssvms : list learner) :
  (main_n_plots ssvms = 2 <->
   exists ssvm, In ssvm ssvms /\ loss_curve_ ssvm <> None) /\
  (main_n_plots ssvms = 1 <->
   forall ssvm, In ssvm ssvms -> loss_curve_ ssvm = None).
Proof.
  unfold main_n_plots.
  destruct (existsb _ ssvms) eqn:E.
  - apply existsb_exists in E as [ssvm [Hin Hloss]].
    split; split; try discriminate.
    + intros _. exists ssvm. split; [assumption|].
      now destruct (loss_curve_ ssvm).
    + reflexivity.
    + intro H. rewrite (H ssvm Hin) in Hloss. discriminate.
  - split; split; try discriminate; try reflexivity.
    + intros [ssvm [Hin Hloss]].
      assert (existsb (fun s => hasattr (loss_curve_ s)) ssvms = true).
      { apply existsb_exists. exists ssvm. split; [assumption|].
        now destruct (loss_curve_ ssvm). }
      congruence.
    + intros _ ssvm Hin.
      destruct (loss_curve_ ssvm) eqn:Hloss; [|reflexivity].
      assert (existsb (fun s => hasattr (loss_curve_ s)) ssvms = true).
      { apply existsb_exists. exists ssvm. split; [assumption|].
        now rewrite Hloss. }
      congruence.
Qed.

(** C2 at a wrapped learner: [main] probes the wrapper, finds no loss
    curve and opens one panel; [plot_learning] unwraps it, finds the loss
    curve and indexes the second panel. *)
Theorem main_panel_count_misses_wrapped_loss :
  loss_curve_ (unwrap latent) = Some (map of_Z [3; 2; 1]%Z) /\
  main_n_plots [latent] = 1 /\
  n_plots (unwrap latent) = 2 /\
  main [(latent, "latent.pickle")] false
  = ([(0, SetXLabel "Passes through training data");
      (0, SetTitle "Objective");
      (0, Plot (map of_Z [0; 1; 2]%Z) (map of_Z [10; 8; 6]%Z)
            (Some "--") (Some "dual objective"));
      (0, SetYScale "log");
      (0, Legend "best")],
     inl IndexError).
Proof.
  repeat split.
Qed.

(** ** The error panel (lines 123-126) *)

Lemma plot_loss_positive_stride ssvm ax inds loss k :
  loss_curve_ ssvm = Some loss ->
  show_loss_every ssvm = Some k ->
  (0 < k)%Z ->
  plot_loss ssvm ax inds
  = try_except
      (plot ax (take_every (Z.to_nat k) 0 (items inds)) loss None None)
      (plot_y ax loss).
Proof.
  intros Hloss Hk Hpos. unfold plot_loss. rewrite Hloss, Hk.
  simpl getattr. rewrite !bind_ret_l.
  destruct k as [|p|p]; try lia.
  destruct inds as [xs | xs]; cbn [stride_seq stride items];
    now rewrite !bind_ret_l.
Qed.

(** C3 fails at a loss curve logged without a stride attribute: under the
    wall clock the x-axis of three steps has as many values as the loss
    curve, so its stride-1 subsample matches, and yet the error panel is
    drawn against the indices, on the step and on the whole run. *)
Lemma loss_without_stride_ignores_matching_axis :
  loss_curve_ no_stride = Some (map of_Z [3; 2; 1]%Z) /\
  show_loss_every no_stride = None /\
  List.length (take_every 1 0 (minutes (map of_Z [0; 10; 70; 130]%Z)))
  = List.length (map of_Z [3; 2; 1]%Z) /\
  plot_loss no_stride 1 (NdArray (minutes (map of_Z [0; 10; 70; 130]%Z)))
  = emit (1, Plot (map of_Z [0; 1; 2]%Z) (map of_Z [3; 2; 1]%Z) None None) /\
  map of_Z [0; 1; 2]%Z
  <> take_every 1 0 (minutes (map of_Z [0; 10; 70; 130]%Z)) /\
  plot_learning no_stride true (AxesList [Axes 0; Axes 1]) ""
  = ([(0, SetXLabel "training time (min)");
      (0, SetTitle "Objective");
      (0, Plot (minutes (map of_Z [0; 10; 70; 130]%Z))
            (map of_Z [10; 8; 6]%Z) (Some "--") (Some "dual objective"));
      (0, SetYScale "log");
      (0, Legend "best");
      (1, SetXLabel "training time (min)");
      (1, Plot (map of_Z [0; 1; 2]%Z) (map of_Z [3; 2; 1]%Z) None None);
      (1, SetTitle "Training Error");
      (1, SetYScale "log")],
     inr [Axes 0; Axes 1]).
Proof.
  split; [reflexivity | split; [reflexivity | split; [reflexivity|]]].
  split; [reflexivity | split; [|reflexivity]].
  intro H.
  apply (f_equal (fun xs : list num => match xs with
                            | x :: _ => Qeq_bool x (of_Z 0)
                            | [] => false
                            end)) in H.
  vm_compute in H. discriminate H.
Qed.

(** C3, as amended: with a loss curve and a stride [show_loss_every] that
    is present and positive, the error panel is drawn against every
    [show_loss_every]-th element of the objective panel's x-axis when there
    are as many of them as loss values, and against the indices
    [0..len(loss_curve)-1] otherwise; a loss curve of length 5 with stride 2
    on an axis of length 8 is drawn against [0, 1, 2, 3, 4].  With the
    stride attribute missing or zero the panel is drawn against the
    indices, whatever the x-axis. *)
Theorem loss_axis_subsampled_or_index :
  (forall ssvm ax inds loss k,
      loss_curve_ ssvm = Some loss ->
      show_loss_every ssvm = Some k ->
      (0 < k)%Z ->
      plot_loss ssvm ax inds
      = emit (ax, Plot (if Nat.eqb
                             (List.length
                                (take_every (Z.to_nat k) 0 (items inds)))
                             (List.length loss)
                        then take_every (Z.to_nat k) 0 (items inds)
                        else arange (List.length loss))
                    loss None None)) /\
  (forall ssvm ax inds loss,
      loss_curve_ ssvm = Some loss ->
      show_loss_every ssvm = Some 2%Z ->
      List.length loss = 5 ->
      List.length (items inds) = 8 ->
      List.length (take_every 2 0 (items inds)) = 4 /\
      plot_loss ssvm ax inds
      = emit (ax, Plot (map of_Z [0; 1; 2; 3; 4]%Z) loss None None)) /\
  (forall ssvm ax inds loss,
      loss_curve_ ssvm = Some loss ->
      show_loss_every ssvm = None \/ show_loss_every ssvm = Some 0%Z ->
      plot_loss ssvm ax inds
      = emit (ax, Plot (arange (List.length loss)) loss None None)).
Proof.
  assert (Hgen : forall ssvm ax inds loss k,
      loss_curve_ ssvm = Some loss ->
      show_loss_every ssvm = Some k ->
      (0 < k)%Z ->
      plot_loss ssvm ax inds
      = emit (ax, Plot (if Nat.eqb
                             (List.length
                                (take_every (Z.to_nat k) 0 (items inds)))
                             (List.length loss)
                        then take_every (Z.to_nat k) 0 (items inds)
                        else arange (List.length loss))
                    loss None None)).
  { intros ssvm ax inds loss k Hloss Hk Hpos.
    rewrite (plot_loss_positive_stride ssvm ax inds loss k Hloss Hk Hpos).
    unfold plot. now destruct (Nat.eqb _ _). }
  split; [exact Hgen | split].
  - intros ssvm ax inds loss Hloss Hk H5 H8.
    assert (H4 : List.length (take_every 2 0 (items inds)) = 4).
    { destruct (items inds)
        as [|x0 [|x1 [|x2 [|x3 [|x4 [|x5 [|x6 [|x7 [|x8 r]]]]]]]]];
        try discriminate H8. reflexivity. }
    split; [exact H4|].
    rewrite (Hgen ssvm ax inds loss 2%Z Hloss Hk) by lia.
    change (Z.to_nat 2) with 2. rewrite H4, H5. reflexivity.
  - intros ssvm ax inds loss Hloss [Hk | Hk];
      unfold plot_loss; rewrite Hloss, Hk.
    + reflexivity.
    + now destruct inds.
Qed.

(** Stride 2 over an axis of eight steps, five loss values. *)
Lemma loss_axis_subsampled_or_index_irregular :
  loss_curve_ irregular_loss = Some (map of_Z [5; 4; 3; 2; 1]%Z) /\
  show_loss_every irregular_loss = Some 2%Z /\
  (0 < 2)%Z /\
  plot_loss irregular_loss 1 (NdArray (arange 8))
  = emit (1, Plot (map of_Z [0; 1; 2; 3; 4]%Z) (map of_Z [5; 4; 3; 2; 1]%Z)
               None None).
Proof.
  split; [reflexivity | split; [reflexivity | split; [lia|]]].
  exact (proj1 loss_axis_subsampled_or_index irregular_loss 1
           (NdArray (arange 8)) (map of_Z [5; 4; 3; 2; 1]%Z) 2%Z
           eq_refl eq_refl ltac:(lia)).
Defined.

(** ** The inference mask (lines 81-85 and 112) *)

Lemma np_any_In (flags : list bool) : np_any flags = true <-> In true flags.
Proof.
  unfold np_any. rewrite existsb_exists. split.
  - intros [b [Hin Hb]]. now subst b.
  - intro H. now exists true.
Qed.

Lemma nth_error_invert (flags : list bool) (i : nat) :
  nth_error (invert flags) i = option_map negb (nth_error flags i).
Proof. apply nth_error_map. Qed.

(** C4: when the cached-constraint flags contain a true value, the mask
    used for the overlay is the negated flags cut to the length of the dual
    objective curve: it has the shorter of the two lengths, so it is no
    longer than the dual curve, and each of its entries is the negation of
    the flag at the same index. *)
Theorem inference_mask_truncated_negation (ssvm : learner)
    (flags : list bool) (dual : list num) :
  cached_constraint_ ssvm = Some flags ->
  np_any flags = true ->
  dual_objective_curve_ ssvm = Some dual ->
  exists run mask,
    inference_run ssvm = Some run /\
    run = map negb flags /\
    truncate_mask ssvm run = ret mask /\
    mask = firstn (List.length dual) (map negb flags) /\
    List.length mask = Nat.min (List.length dual) (List.length flags) /\
    List.length mask <= List.length dual /\
    (forall i, i < List.length mask ->
               nth_error mask i = option_map negb (nth_error flags i)) /\
    (forall i b, i < List.length dual -> nth_error flags i = Some b ->
                 nth_error mask i = Some (negb b)).
Proof.
  intros Hflags Hany Hdual.
  exists (invert flags), (firstn (List.length dual) (invert flags)).
  unfold inference_run, truncate_mask. rewrite Hflags, Hany, Hdual.
  assert (Hnth : forall i, i < List.length dual ->
             nth_error (firstn (List.length dual) (invert flags)) i
             = option_map negb (nth_error flags i)).
  { intros i Hi. rewrite nth_error_firstn.
    destruct (Nat.ltb_spec i (List.length dual)) as [_ | Hge]; [|lia].
    apply nth_error_invert. }
  repeat split.
  - unfold invert. now rewrite length_firstn, length_map.
  - rewrite length_firstn. lia.
  - intros i Hi. rewrite length_firstn in Hi. apply Hnth. lia.
  - intros i b Hi Hb. rewrite (Hnth i Hi), Hb. reflexivity.
Qed.

(** Three flags cut to a dual curve of two steps. *)
Lemma inference_mask_truncated_negation_long_flags :
  cached_constraint_ long_flags = Some [false; true; false] /\
  np_any [false; true; false] = true /\
  dual_objective_curve_ long_flags = Some (map of_Z [10; 8]%Z) /\
  exists run mask,
    inference_run long_flags = Some run /\
    run = [true; false; true] /\
    truncate_mask long_flags run = ret mask /\
    mask = [true; false] /\
    List.length mask = 2 /\
    List.length mask <= 2 /\
    (forall i, i < List.length mask ->
               nth_error mask i
               = option_map negb (nth_error [false; true; false] i)) /\
    (forall i b, i < 2 -> nth_error [false; true; false] i = Some b ->
                 nth_error mask i = Some (negb b)).
Proof.
  split; [reflexivity | split; [reflexivity | split; [reflexivity|]]].
  exact (inference_mask_truncated_negation long_flags [false; true; false]
           (map of_Z [10; 8]%Z) eq_refl eq_refl eq_refl).
Defined.

(** C5: the inference mask is present exactly when the cached-constraint
    flags are present and contain a true value; with flags that are all
    false the mask is absent and no marker overlay is drawn. *)
Theorem inference_mask_present_iff (ssvm : learner) :
  (inference_run ssvm <> None <->
   exists flags, cached_constraint_ ssvm = Some flags /\ In true flags) /\
  (forall flags,
      cached_constraint_ ssvm = Some flags -> Forall (eq false) flags ->
      inference_run ssvm = None) /\
  (forall ssvm0 time axes prefix flags,
      unwrap ssvm0 = ssvm ->
      cached_constraint_ ssvm = Some flags -> Forall (eq false) flags ->
      Forall (fun ev => ~ is_marker ev)
        (trace (plot_learning ssvm0 time axes prefix))).
Proof.
  assert (Hfalse : forall flags,
             cached_constraint_ ssvm = Some flags -> Forall (eq false) flags ->
             inference_run ssvm = None).
  { intros flags Hflags Hall. unfold inference_run. rewrite Hflags.
    destruct (np_any flags) eqn:Hany; [|reflexivity].
    apply np_any_In in Hany. rewrite Forall_forall in Hall.
    now specialize (Hall true Hany). }
  split; [|split].
  - unfold inference_run. destruct (cached_constraint_ ssvm) as [flags|].
    + destruct (np_any flags) eqn:Hany; split.
      * intros _. exists flags. split; [reflexivity | now apply np_any_In].
      * discriminate.
      * congruence.
      * intros [flags' [E Hin]]. injection E as <-.
        apply np_any_In in Hin. congruence.
    + split; [congruence | now intros [flags [E _]]].
  - exact Hfalse.
  - intros ssvm0 time axes prefix flags Hu Hflags Hall.
    apply no_marker_without_mask. rewrite Hu. now apply (Hfalse flags).
Qed.

(** Flags that are all false: no mask, no marker. *)
Lemma inference_mask_present_iff_never_cached :
  cached_constraint_ never_cached = Some [false; false; false] /\
  Forall (eq false) [false; false; false] /\
  inference_run never_cached = None /\
  Forall (fun ev => ~ is_marker ev)
    (trace (plot_learning never_cached false AxesNone "")).
Proof.
  assert (Hall : Forall (eq false) [false; false; false])
    by (repeat constructor).
  split; [reflexivity | split; [exact Hall | split]].
  - exact (proj1 (proj2 (inference_mask_present_iff never_cached))
             [false; false; false] eq_refl Hall).
  - exact (proj2 (proj2 (inference_mask_present_iff never_cached))
             never_cached false AxesNone "" [false; false; false]
             eq_refl eq_refl Hall).
Defined.

(** ** The marker overlay (lines 111-115) *)

(** C6 fails without a dual curve: the mask is present, the overlay step
    raises, and the objective panel holds no marker command. *)
Lemma overlay_missing_without_dual :
  inference_run primal_only = Some [true; false; true] /\
  outcome (plot_learning primal_only false AxesNone "")
  = inl (AttributeError "dual_objective_curve_") /\
  ~ Exists is_marker (trace (plot_learning primal_only false AxesNone "")).
Proof.
  split; [reflexivity | split; [reflexivity|]].
  apply Forall_Exists_neg, no_marker_outside_overlay.
  intros ax inds. apply emits_only_silent. reflexivity.
Qed.

(** C6, as amended: when the inference mask is present, the dual and the
    primal objective curves are present, the x-axis is an array, and the
    x-axis and the primal curve both have the length of the mask cut to the
    length of the dual curve, the overlay step draws one marker-only
    command, labelled prefix+"primal", whose x-values are the x-axis
    restricted by the cut mask and whose y-values are the primal curve
    restricted by it.  For the dual curve [10, 8, 6], the primal curve
    [20, 15, 11] and the flags [false, true, false] under the iteration
    basis, the objective panel holds the dashed dual line, the solid
    "cached primal objective" line and the overlay at x = [0, 2],
    y = [20, 11]. *)
Theorem overlay_marks_inference_runs :
  (forall ssvm ax prefix xs run dual primal,
      inference_run ssvm = Some run ->
      dual_objective_curve_ ssvm = Some dual ->
      primal_objective_curve_ ssvm = Some primal ->
      List.length xs = List.length (firstn (List.length dual) run) ->
      List.length primal = List.length (firstn (List.length dual) run) ->
      plot_inference_runs ssvm ax prefix (NdArray xs) (inference_run ssvm)
      = emit (ax, Plot (compress (firstn (List.length dual) run) xs)
                    (compress (firstn (List.length dual) run) primal)
                    (Some "o") (Some (prefix ++ "primal")%string))) /\
  plot_learning three_steps false AxesNone ""
  = ([(0, SetXLabel "Passes through training data");
      (0, SetTitle "Objective");
      (0, Plot (map of_Z [0; 1; 2]%Z) (map of_Z [10; 8; 6]%Z)
            (Some "--") (Some "dual objective"));
      (0, SetYScale "log");
      (0, Plot (map of_Z [0; 1; 2]%Z) (map of_Z [20; 15; 11]%Z)
            None (Some "cached primal objective"));
      (0, Plot (map of_Z [0; 2]%Z) (map of_Z [20; 11]%Z)
            (Some "o") (Some "primal"));
      (0, Legend "best")],
     inr [Axes 0]).
Proof.
  split; [|reflexivity].
  intros ssvm ax prefix xs run dual primal Hrun Hdual Hprimal Hxs Hp.
  rewrite Hrun. unfold plot_inference_runs, truncate_mask.
  rewrite Hdual, Hprimal. simpl getattr. rewrite !bind_ret_l.
  set (mask := firstn (List.length dual) run) in *.
  unfold mask_index_seq, mask_index.
  rewrite (proj2 (Nat.eqb_eq _ _) (eq_sym Hxs)), !bind_ret_l.
  rewrite (proj2 (Nat.eqb_eq _ _) (eq_sym Hp)), bind_ret_l.
  unfold plot.
  rewrite (length_compress mask xs primal) by assumption.
  now rewrite Nat.eqb_refl.
Qed.

(** The overlay step on the three-step learner. *)
Lemma overlay_marks_inference_runs_three_steps :
  inference_run three_steps = Some [true; false; true] /\
  dual_objective_curve_ three_steps = Some (map of_Z [10; 8; 6]%Z) /\
  primal_objective_curve_ three_steps = Some (map of_Z [20; 15; 11]%Z) /\
  plot_inference_runs three_steps 0 "" (NdArray (map of_Z [0; 1; 2]%Z))
    (inference_run three_steps)
  = emit (0, Plot (map of_Z [0; 2]%Z) (map of_Z [20; 11]%Z)
               (Some "o") (Some "primal")).
Proof.
  split; [reflexivity | split; [reflexivity | split; [reflexivity|]]].
  exact (proj1 overlay_marks_inference_runs three_steps 0 ""
           (map of_Z [0; 1; 2]%Z) [true; false; true]
           (map of_Z [10; 8; 6]%Z) (map of_Z [20; 15; 11]%Z)
           eq_refl eq_refl eq_refl eq_refl eq_refl).
Defined.

(** ** The iteration axis (lines 70-78) *)

(** C7 fails at an empty dual curve: [hasattr] selects it, and reading its
    last element for the report raises before any axis is used. *)
Lemma iteration_axis_empty_dual_raises :
  iterations_ empty_dual = None /\
  dual_objective_curve_ empty_dual = Some [] /\
  iteration_axis empty_dual = raise IndexError /\
  iteration_axis empty_dual <> ret (NdArray (arange 0)) /\
  forall time axes prefix,
    plot_learning empty_dual time axes prefix = raise IndexError.
Proof.
  split; [reflexivity | split; [reflexivity | split; [reflexivity | split]]].
  - discriminate.
  - reflexivity.
Qed.

(** C7, as amended: the iteration axis is the [iterations_] attribute
    verbatim when it is present; otherwise it is [0..len-1] of the dual
    objective curve when that curve is present and not empty, and of the
    primal objective curve when the dual one is absent and the primal one is
    present and not empty. *)
Theorem iteration_axis_selection (ssvm : learner) :
  (forall its, iterations_ ssvm = Some its -> iteration_axis ssvm = ret its) /\
  (forall dual,
      iterations_ ssvm = None ->
      dual_objective_curve_ ssvm = Some dual -> dual <> [] ->
      iteration_axis ssvm = ret (NdArray (arange (List.length dual)))) /\
  (forall primal,
      iterations_ ssvm = None ->
      dual_objective_curve_ ssvm = None ->
      primal_objective_curve_ ssvm = Some primal -> primal <> [] ->
      iteration_axis ssvm = ret (NdArray (arange (List.length primal)))).
Proof.
  unfold iteration_axis. repeat split.
  - intros its ->. reflexivity.
  - intros dual -> -> Hne.
    destruct (last_item_nonempty dual Hne) as [x ->]. reflexivity.
  - intros primal -> -> -> Hne. simpl.
    destruct (last_item_nonempty primal Hne) as [x ->]. reflexivity.
Qed.

(** The axis synthesised from a dual curve of three steps. *)
Lemma iteration_axis_selection_three_steps :
  iterations_ three_steps = None /\
  dual_objective_curve_ three_steps = Some (map of_Z [10; 8; 6]%Z) /\
  map of_Z [10; 8; 6]%Z <> [] /\
  iteration_axis three_steps = ret (NdArray (map of_Z [0; 1; 2]%Z)).
Proof.
  split; [reflexivity | split; [reflexivity | split; [discriminate|]]].
  exact (proj1 (proj2 (iteration_axis_selection three_steps))
           (map of_Z [10; 8; 6]%Z) eq_refl eq_refl
           ltac:(discriminate)).
Defined.

(** ** The wall-clock axis (lines 95-97) *)

(** C8: under the wall-clock basis with timestamps present, the x-axis is
    the timestamps without their first entry, each divided by 60; for
    [0, 10, 70, 130] it is [1/6, 7/6, 13/6], of length 3. *)
Theorem wallclock_axis_minutes :
  (forall ssvm iterations ax rest timestamps,
      timestamps_ ssvm = Some timestamps ->
      x_axis ssvm true iterations (Axes ax :: rest)
      = ([(ax, SetXLabel "training time (min)")],
         inr (NdArray (map (fun t => (t / of_Z 60)%Qc) (tl timestamps))))) /\
  minutes (map of_Z [0; 10; 70; 130]%Z) = [frac 1 6; frac 7 6; frac 13 6] /\
  List.length (minutes (map of_Z [0; 10; 70; 130]%Z)) = 3.
Proof.
  split; [|split].
  - intros ssvm iterations ax rest timestamps H.
    unfold x_axis. rewrite H. reflexivity.
  - apply nums_eqb_eq. reflexivity.
  - reflexivity.
Qed.

(** The wall-clock axis of [0, 10, 70, 130]. *)
Lemma wallclock_axis_minutes_timed :
  timestamps_ (timed [0; 10; 70; 130]%Z) = Some (map of_Z [0; 10; 70; 130]%Z) /\
  x_axis (timed [0; 10; 70; 130]%Z) true (NdArray (arange 3)) [Axes 0]
  = ([(0, SetXLabel "training time (min)")],
     inr (NdArray (map (fun t => (t / of_Z 60)%Qc)
                     (tl (map of_Z [0; 10; 70; 130]%Z))))).
Proof.
  split; [reflexivity|].
  exact (proj1 wallclock_axis_minutes (timed [0; 10; 70; 130]%Z)
           (NdArray (arange 3)) 0 [] (map of_Z [0; 10; 70; 130]%Z) eq_refl).
Defined.

(** ** The label of the primal curve (lines 107-110) *)

(** C9 fails at a prefix that contains "cached": the batch prefix of
    [uncached.pickle] puts the word into the label of a learner that never
    cached a constraint. *)
Lemma primal_label_cached_in_prefix :
  legend_prefix 2 "uncached.pickle" = "uncached " /\
  inference_run never_cached = None /\
  plot_primal never_cached 0 "uncached " (NdArray (arange 3))
    (inference_run never_cached)
  = emit (0, Plot (arange 3) (map of_Z [20; 15; 11]%Z) None
               (Some "uncached primal objective")) /\
  ~ (contains "cached" (primal_label "uncached " (inference_run never_cached))
     = true <-> inference_run never_cached <> None).
Proof.
  split; [reflexivity | split; [reflexivity | split; [reflexivity|]]].
  intros [H _]. now apply H.
Qed.

(** C9, as amended: the primal curve is drawn with the label
    prefix+"cached primal objective" when the inference mask is present and
    prefix+"primal objective" otherwise; the label contains "cached" if and
    only if the mask is present or the prefix itself contains "cached". *)
Theorem primal_label_policy :
  (forall ssvm ax prefix inds mask primal,
      primal_objective_curve_ ssvm = Some primal ->
      List.length (items inds) = List.length primal ->
      plot_primal ssvm ax prefix inds mask
      = emit (ax, Plot (items inds) primal None
                    (Some (primal_label prefix mask)))) /\
  (forall prefix run,
      primal_label prefix (Some run)
      = (prefix ++ "cached primal objective")%string) /\
  (forall prefix,
      primal_label prefix None = (prefix ++ "primal objective")%string) /\
  (forall prefix mask,
      contains "cached" (primal_label prefix mask)
      = hasattr mask || contains "cached" prefix).
Proof.
  split; [|split; [|split]].
  - intros ssvm ax prefix inds mask primal Hprimal Hlen.
    unfold plot_primal, plot. rewrite Hprimal, Hlen. now rewrite Nat.eqb_refl.
  - reflexivity.
  - reflexivity.
  - intros prefix [run|]; simpl.
    + now apply contains_app_r.
    + rewrite contains_app_foreign by reflexivity.
      apply orb_false_r.
Qed.

(** The primal curve of the three-step learner, which cached a constraint. *)
Lemma primal_label_policy_three_steps :
  primal_objective_curve_ three_steps = Some (map of_Z [20; 15; 11]%Z) /\
  List.length (items (NdArray (arange 3))) = 3 /\
  plot_primal three_steps 0 "" (NdArray (arange 3)) (inference_run three_steps)
  = emit (0, Plot (arange 3) (map of_Z [20; 15; 11]%Z) None
               (Some "cached primal objective")).
Proof.
  split; [reflexivity | split; [reflexivity|]].
  exact (proj1 primal_label_policy three_steps 0 "" (NdArray (arange 3))
           (inference_run three_steps) (map of_Z [20; 15; 11]%Z)
           eq_refl eq_refl).
Defined.

(** ** The overlay without a dual curve (lines 111-115) *)

(** C10: with cached-constraint flags that contain a true value and no
    dual objective curve, plotting fails: the overlay step reads the dual
    curve to cut the mask and raises before any marker is drawn. *)
Theorem overlay_requires_dual_curve ssvm0 time axes prefix flags :
  cached_constraint_ (unwrap ssvm0) = Some flags ->
  np_any flags = true ->
  dual_objective_curve_ (unwrap ssvm0) = None ->
  fails (plot_learning ssvm0 time axes prefix) /\
  (forall ax inds,
      plot_inference_runs (unwrap ssvm0) ax prefix inds
        (inference_run (unwrap ssvm0))
      = raise (AttributeError "dual_objective_curve_")) /\
  Forall (fun ev => ~ is_marker ev)
    (trace (plot_learning ssvm0 time axes prefix)).
Proof.
  intros Hflags Hany Hdual.
  assert (Hstep : forall ax inds,
             plot_inference_runs (unwrap ssvm0) ax prefix inds
               (inference_run (unwrap ssvm0))
             = raise (AttributeError "dual_objective_curve_")).
  { intros ax inds. unfold inference_run. rewrite Hflags, Hany.
    now apply plot_inference_runs_without_dual. }
  split; [|split].
  - apply plot_learning_fails_in_overlay. intros ax inds.
    rewrite Hstep. apply fails_raise.
  - exact Hstep.
  - apply no_marker_outside_overlay. intros ax inds.
    rewrite Hstep. apply emits_only_raise.
Qed.

(** Cache hits logged without a dual curve. *)
Lemma overlay_requires_dual_curve_primal_only :
  cached_constraint_ (unwrap primal_only) = Some [false; true; false] /\
  np_any [false; true; false] = true /\
  dual_objective_curve_ (unwrap primal_only) = None /\
  fails (plot_learning primal_only false AxesNone "").
Proof.
  split; [reflexivity | split; [reflexivity | split; [reflexivity|]]].
  exact (proj1 (overlay_requires_dual_curve primal_only false AxesNone ""
                  [false; true; false] eq_refl eq_refl eq_refl)).
Defined.

(** * Further properties of [plot_learning] and [main] *)

(** ** Runs, continued *)

Lemma bind_failed {A B} (m : M A) (f : A -> M B) (e : exn) :
  outcome m = inl e -> bind m f = (trace m, inl e).
Proof.
  destruct m as [t r]. simpl. now intros ->.
Qed.

Lemma bind_succeeded {A B} (m : M A) (f : A -> M B) (a : A) :
  outcome m = inr a ->
  bind m f = (trace m ++ trace (f a), outcome (f a)).
Proof.
  destruct m as [t r]. simpl. intros ->. now destruct (f a).
Qed.

Lemma bind_assoc {A B C} (m : M A) (f : A -> M B) (g : B -> M C) :
  bind (bind m f) g = bind m (fun a => bind (f a) g).
Proof.
  destruct m as [t [e | a]]; [reflexivity|]. simpl.
  destruct (f a) as [t' [e | b]]; [reflexivity|]. simpl.
  destruct (g b) as [t'' r]. now rewrite app_assoc.
Qed.

Lemma emits_only_bind_value {A B} (P : event -> Prop) (m : M A)
    (f : A -> M B) :
  emits_only P m -> (forall a, outcome m = inr a -> emits_only P (f a)) ->
  emits_only P (bind m f).
Proof.
  unfold emits_only, trace. intros Hm Hf.
  destruct m as [t [e | a]]; simpl in *; [assumption|].
  specialize (Hf a eq_refl). destruct (f a) as [t' r]. simpl in *.
  apply Forall_app. now split.
Qed.

Lemma plot_equal_lengths ax x y fmt label :
  List.length x = List.length y ->
  plot ax x y fmt label = emit (ax, Plot x y fmt label).
Proof.
  intro H. unfold plot. now rewrite H, Nat.eqb_refl.
Qed.

Lemma plot_unequal_lengths ax x y fmt label :
  List.length x <> List.length y ->
  plot ax x y fmt label = raise ValueError.
Proof.
  intro H. unfold plot.
  now destruct (Nat.eqb_spec (List.length x) (List.length y)).
Qed.

Lemma length_minutes (timestamps : list num) :
  List.length (minutes timestamps) = List.length timestamps - 1.
Proof.
  unfold minutes. rewrite length_map.
  destruct timestamps; simpl; [reflexivity | now rewrite Nat.sub_0_r].
Qed.

Lemma np_max_nonempty (xs : list num) :
  xs <> [] -> exists x, np_max xs = ret x.
Proof.
  destruct xs as [|x xs]; [contradiction|]. intros _.
  eexists. reflexivity.
Qed.

(** ** Learners without a usable iteration axis (lines 70-80) *)

(** A learner with neither [iterations_] nor an objective curve cannot be
    plotted: the run ends in the [AttributeError] of the primal curve
    before anything is drawn, whatever else the learner logged. *)
Theorem no_objective_curve_raises ssvm0 time axes prefix :
  iterations_ (unwrap ssvm0) = None ->
  dual_objective_curve_ (unwrap ssvm0) = None ->
  primal_objective_curve_ (unwrap ssvm0) = None ->
  plot_learning ssvm0 time axes prefix
  = raise (AttributeError "primal_objective_curve_").
Proof.
  intros Hit Hdual Hprimal. unfold plot_learning, iteration_axis.
  now rewrite Hit, Hdual, Hprimal.
Qed.

(** A perceptron-like learner: a loss curve and no objective. *)
Lemma no_objective_curve_raises_loss_only :
  iterations_ (unwrap loss_only) = None /\
  dual_objective_curve_ (unwrap loss_only) = None /\
  primal_objective_curve_ (unwrap loss_only) = None /\
  plot_learning loss_only false (AxesList [Axes 0; Axes 1]) ""
  = raise (AttributeError "primal_objective_curve_").
Proof.
  split; [reflexivity | split; [reflexivity | split; [reflexivity|]]].
  exact (no_objective_curve_raises loss_only false
           (AxesList [Axes 0; Axes 1]) "" eq_refl eq_refl eq_refl).
Defined.

(** An [iterations_] attribute without entries takes precedence over the
    objective curves and ends the run in the [ValueError] of [np.max],
    before anything is drawn. *)
Theorem empty_iterations_raise ssvm0 time axes prefix its :
  iterations_ (unwrap ssvm0) = Some its ->
  items its = [] ->
  plot_learning ssvm0 time axes prefix = raise ValueError.
Proof.
  intros Hit Hempty. unfold plot_learning, iteration_axis.
  rewrite Hit, bind_ret_l, Hempty. reflexivity.
Qed.

Lemma empty_iterations_raise_no_step :
  iterations_ (unwrap no_step) = Some (PyList []) /\
  items (PyList []) = [] /\
  plot_learning no_step false AxesNone "" = raise ValueError.
Proof.
  split; [reflexivity | split; [reflexivity|]].
  exact (empty_iterations_raise no_step false AxesNone "" (PyList [])
           eq_refl eq_refl).
Defined.

(** ** The axes the run draws on (lines 90-93) *)

Lemma x_axis_on_array ssvm time iterations panels rest :
  fails (x_axis ssvm time iterations (AxesArray panels :: rest)) /\
  trace (x_axis ssvm time iterations (AxesArray panels :: rest)) = [].
Proof.
  unfold x_axis. destruct time.
  - destruct (timestamps_ ssvm); split; try reflexivity;
      eexists; reflexivity.
  - split; [eexists|]; reflexivity.
Qed.

Lemma plot_learning_fails_in_x_axis ssvm0 time axes prefix :
  (forall iterations,
      fails (x_axis (unwrap ssvm0) time iterations
               (resolve_axes axes (n_plots (unwrap ssvm0)))) /\
      trace (x_axis (unwrap ssvm0) time iterations
               (resolve_axes axes (n_plots (unwrap ssvm0)))) = []) ->
  fails (plot_learning ssvm0 time axes prefix) /\
  trace (plot_learning ssvm0 time axes prefix) = [].
Proof.
  intro Hx. unfold plot_learning. split.
  - apply fails_bind_r. intro iterations.
    apply fails_bind_r. intros _.
    apply fails_bind_l, Hx.
  - apply trace_bind_nil; [apply trace_iteration_axis | intro iterations].
    apply trace_bind_nil; [apply trace_np_max | intros _].
    destruct (Hx iterations) as [[e He] Ht].
    now rewrite (bind_failed _ _ e He).
Qed.



(** A single Axes object cannot hold the error panel: the run fails, in
    [axes[1]] at the latest. *)
Lemma single_axes_with_loss_curve_fail ssvm0 time panel prefix loss :
  loss_curve_ (unwrap ssvm0) = Some loss ->
  fails (plot_learning ssvm0 time (AxesObj (Axes panel)) prefix).
Proof.
  intro Hloss. unfold plot_learning.
  apply fails_bind_r. intro iterations.
  apply fails_bind_r. intros _.
  apply fails_bind_r. intro inds.
  apply fails_bind_r. intro ax.
  apply fails_bind_r. intros _.
  apply fails_bind_l. unfold error_panel, n_plots. rewrite Hloss.
  now exists IndexError.
Qed.

(** ** The batch (lines 27-36) *)

Lemma plot_all_fails n axes time loaded ssvm file_name :
  In (ssvm, file_name) loaded ->
  fails (plot_learning ssvm time (AxesObj axes) (legend_prefix n file_name)) ->
  fails (plot_all n axes time loaded).
Proof.
  induction loaded as [|[s f] rest IH]; intros Hin Hfail; [contradiction|].
  simpl. destruct Hin as [E | Hin].
  - injection E as -> ->. now apply fails_bind_l.
  - apply fails_bind_r. intros _. now apply IH.
Qed.

(** [main] never gets to show a training-error panel: as soon as one of the
    loaded objects, or the learner it wraps, has a loss curve, the batch
    ends in an exception.  With two panels every call of [plot_learning]
    is handed the array of Axes; with one panel the learner that has the
    loss curve reaches for a second one. *)
Theorem main_fails_with_loss_curve loaded time ssvm file_name :
  In (ssvm, file_name) loaded ->
  loss_curve_ ssvm <> None \/ loss_curve_ (unwrap ssvm) <> None ->
  fails (main loaded time).
Proof.
  intros Hin Hloss. unfold main, main_n_plots.
  destruct (existsb _ (map fst loaded)) eqn:E.
  - apply (plot_all_fails _ _ _ _ ssvm file_name Hin).
    apply plot_learning_fails_in_x_axis. intro iterations.
    apply x_axis_on_array.
  - apply (plot_all_fails _ _ _ _ ssvm file_name Hin).
    destruct Hloss as [Hloss | Hloss].
    + exfalso. destruct (loss_curve_ ssvm) as [loss|] eqn:El; [|congruence].
      assert (existsb (fun s => hasattr (loss_curve_ s)) (map fst loaded)
              = true); [|congruence].
      apply existsb_exists. exists ssvm. split.
      * apply in_map_iff. now exists (ssvm, file_name).
      * now rewrite El.
    + destruct (loss_curve_ (unwrap ssvm)) as [loss|] eqn:El; [|congruence].
      now apply (single_axes_with_loss_curve_fail ssvm time 0 _ loss).
Qed.

(** A learner with a loss curve of its own, loaded next to one without. *)
Lemma main_fails_with_loss_curve_pair :
  In (no_stride, "b.pickle") [(three_steps, "a.pickle"); (no_stride, "b.pickle")] /\
  loss_curve_ no_stride <> None /\
  fails (main [(three_steps, "a.pickle"); (no_stride, "b.pickle")] false).
Proof.
  assert (Hin : In (no_stride, "b.pickle")
                  [(three_steps, "a.pickle"); (no_stride, "b.pickle")])
    by (right; left; reflexivity).
  assert (Hloss : loss_curve_ no_stride <> None) by discriminate.
  split; [exact Hin | split; [exact Hloss|]].
  exact (main_fails_with_loss_curve _ false no_stride "b.pickle" Hin
           (or_introl Hloss)).
Defined.

Lemma plot_all_app n axes time l1 l2 :
  plot_all n axes time (l1 ++ l2)
  = (plot_all n axes time l1 ;;; plot_all n axes time l2).
Proof.
  induction l1 as [|[s f] l1 IH]; cbn [plot_all app].
  - now rewrite bind_ret_l.
  - now rewrite IH, bind_assoc.
Qed.

(** The batch stops at the first learner that cannot be plotted: the
    learners after it are never drawn, and the batch ends in that
    learner's exception. *)
Theorem batch_stops_at_first_failure n axes time l1 ssvm file_name l2 e :
  outcome (plot_learning ssvm time (AxesObj axes) (legend_prefix n file_name))
  = inl e ->
  Forall (fun lf => succeeds (plot_learning (fst lf) time (AxesObj axes)
                                (legend_prefix n (snd lf)))) l1 ->
  plot_all n axes time (l1 ++ (ssvm, file_name) :: l2)
  = (batch_traces n axes time (l1 ++ [(ssvm, file_name)]), inl e).
Proof.
  intros He Hl1. unfold batch_traces.
  induction Hl1 as [|[s f] l1 [a Ha] _ IH]; simpl.
  - rewrite (bind_failed _ _ e He). now rewrite app_nil_r.
  - rewrite (bind_succeeded _ _ a Ha). now rewrite IH.
Qed.

Lemma batch_stops_at_first_failure_primal_only :
  outcome (plot_learning primal_only false (AxesObj (Axes 0))
             (legend_prefix 3 "b.pickle"))
  = inl (AttributeError "dual_objective_curve_") /\
  outcome (main [(three_steps, "a.pickle"); (primal_only, "b.pickle");
                 (never_cached, "c.pickle")] false)
  = inl (AttributeError "dual_objective_curve_") /\
  trace (main [(three_steps, "a.pickle"); (primal_only, "b.pickle");
               (never_cached, "c.pickle")] false)
  = batch_traces 3 (Axes 0) false
      [(three_steps, "a.pickle"); (primal_only, "b.pickle")].
Proof.
  assert (Hl : Forall
                 (fun lf => succeeds
                    (plot_learning (fst lf) false (AxesObj (Axes 0))
                       (legend_prefix 3 (snd lf))))
                 [(three_steps, "a.pickle")]).
  { repeat constructor. now exists [Axes 0]. }
  assert (H := batch_stops_at_first_failure 3 (Axes 0) false
                 [(three_steps, "a.pickle")] primal_only "b.pickle"
                 [(never_cached, "c.pickle")]
                 (AttributeError "dual_objective_curve_") eq_refl Hl).
  split; [reflexivity|].
  change (main [(three_steps, "a.pickle"); (primal_only, "b.pickle");
                (never_cached, "c.pickle")] false)
    with (plot_all 3 (Axes 0) false
            ([(three_steps, "a.pickle")]
             ++ (primal_only, "b.pickle") :: [(never_cached, "c.pickle")])).
  rewrite H. split; reflexivity.
Defined.

(** When every learner of the batch can be plotted, the batch draws their
    curves one learner after the other, in the order of the files. *)
Theorem batch_draws_in_file_order n axes time loaded :
  Forall (fun lf => succeeds (plot_learning (fst lf) time (AxesObj axes)
                                (legend_prefix n (snd lf)))) loaded ->
  plot_all n axes time loaded = (batch_traces n axes time loaded, inr tt).
Proof.
  unfold batch_traces.
  induction 1 as [|[s f] rest [a Ha] _ IH]; simpl; [reflexivity|].
  rewrite (bind_succeeded _ _ a Ha). now rewrite IH.
Qed.

Lemma batch_draws_in_file_order_pair :
  Forall (fun lf => succeeds (plot_learning (fst lf) false (AxesObj (Axes 0))
                                (legend_prefix 2 (snd lf))))
    [(three_steps, "a.pickle"); (never_cached, "never.pickle")] /\
  main [(three_steps, "a.pickle"); (never_cached, "never.pickle")] false
  = (trace (plot_learning three_steps false (AxesObj (Axes 0)) "a ")
     ++ trace (plot_learning never_cached false (AxesObj (Axes 0)) "never "),
     inr tt).
Proof.
  assert (H : Forall (fun lf => succeeds
                        (plot_learning (fst lf) false (AxesObj (Axes 0))
                           (legend_prefix 2 (snd lf))))
                [(three_steps, "a.pickle"); (never_cached, "never.pickle")]).
  { repeat constructor; now exists [Axes 0]. }
  split; [exact H|].
  change (main [(three_steps, "a.pickle"); (never_cached, "never.pickle")]
            false)
    with (plot_all 2 (Axes 0) false
            [(three_steps, "a.pickle"); (never_cached, "never.pickle")]).
  rewrite (batch_draws_in_file_order 2 (Axes 0) false _ H).
  reflexivity.
Defined.

(** ** The legend prefix (lines 33-35) *)

Lemma substring_0_append (stem rest : string) :
  substring 0 (String.length stem) (stem ++ rest) = stem.
Proof.
  induction stem as [|c stem IH]; simpl.
  - now destruct rest.
  - now rewrite IH.
Qed.

Lemma length_append (s1 s2 : string) :
  String.length (s1 ++ s2) = String.length s1 + String.length s2.
Proof.
  induction s1 as [|c s1 IH]; simpl; [reflexivity | now rewrite IH].
Qed.

Lemma substring_0_0 (s : string) : substring 0 0 s = "".
Proof. now destruct s. Qed.

(** In a batch of two or more files the legend prefix of a file is its
    name without the last seven characters (the extension [.pickle], or
    whatever else stands there), followed by a space; a name of seven
    characters or fewer leaves the space alone.  A single file gets no
    prefix. *)
Theorem legend_prefix_strips_extension (n : nat) (stem ext name : string) :
  (2 <= n -> String.length ext = 7 ->
   legend_prefix n (stem ++ ext) = (stem ++ " ")%string) /\
  (2 <= n -> String.length name <= 7 -> legend_prefix n name = " ") /\
  (n <= 1 -> legend_prefix n name = "").
Proof.
  unfold legend_prefix, drop_last7. repeat split.
  - intros Hn Hext.
    destruct (Nat.ltb_spec 1 n) as [_ | H]; [|lia].
    rewrite length_append, Hext, Nat.add_sub.
    now rewrite substring_0_append.
  - intros Hn Hname.
    destruct (Nat.ltb_spec 1 n) as [_ | H]; [|lia].
    replace (String.length name - 7) with 0 by lia.
    now rewrite substring_0_0.
  - intro Hn. destruct (Nat.ltb_spec 1 n) as [H | _]; [lia | reflexivity].
Qed.

Lemma legend_prefix_strips_extension_model :
  2 <= 2 /\ String.length ".pickle" = 7 /\
  legend_prefix 2 "chain_model.pickle" = "chain_model ".
Proof.
  split; [lia | split; [reflexivity|]].
  exact (proj1 (legend_prefix_strips_extension 2 "chain_model" ".pickle" "")
           ltac:(lia) eq_refl).
Defined.

(** ** The error panel, continued (lines 117-129) *)

(** The bare [except] makes the loss plot total: with a loss curve the
    step always succeeds and draws the whole curve once, against x-values
    of its own length, whatever the stride attribute and the x-axis are. *)
Lemma plot_loss_total ssvm ax inds loss :
  loss_curve_ ssvm = Some loss ->
  exists x,
    List.length x = List.length loss /\
    plot_loss ssvm ax inds = emit (ax, Plot x loss None None).
Proof.
  intro Hloss. unfold plot_loss. rewrite Hloss.
  assert (Hfallback :
            (loss0 <- getattr "loss_curve_" (Some loss) ;; plot_y ax loss0)
            = emit (ax, Plot (arange (List.length loss)) loss None None))
    by reflexivity.
  rewrite Hfallback.
  destruct (show_loss_every ssvm) as [k|];
    [|exists (arange (List.length loss)); split;
      [apply length_arange | reflexivity]].
  simpl getattr. rewrite bind_ret_l.
  assert (Hstride : forall xs : list num,
             stride k xs = raise ValueError \/
             exists xs', stride k xs = ret xs').
  { intro xs. destruct k; [now left | right; eexists; reflexivity ..]. }
  assert (Hseq : stride_seq k inds = raise ValueError \/
                 exists x, stride_seq k inds = ret x).
  { destruct inds as [xs | xs]; simpl;
      (destruct (Hstride xs) as [-> | [xs' ->]];
       [now left | right; eexists; reflexivity]). }
  destruct Hseq as [-> | [x ->]].
  - exists (arange (List.length loss)). split;
      [apply length_arange | reflexivity].
  - rewrite bind_ret_l. simpl getattr. rewrite bind_ret_l. unfold plot.
    destruct (Nat.eqb_spec (List.length (items x)) (List.length loss)).
    + exists (items x). now split.
    + exists (arange (List.length loss)). split;
        [apply length_arange | reflexivity].
Qed.

(** Given a second Axes object, the error panel of a learner with a loss
    curve is always drawn in full: the x-label of the time basis, the whole
    loss curve against x-values of its own length, the title and the log
    scale.  No stride, x-axis or length mismatch makes it raise. *)
Theorem error_panel_always_drawn ssvm time first ax rest inds loss :
  loss_curve_ ssvm = Some loss ->
  exists x,
    List.length x = List.length loss /\
    error_panel ssvm time (n_plots ssvm) (first :: Axes ax :: rest) inds
    = ([(ax, SetXLabel (time_label time));
        (ax, Plot x loss None None);
        (ax, SetTitle "Training Error");
        (ax, SetYScale "log")], inr tt).
Proof.
  intro Hloss.
  destruct (plot_loss_total ssvm ax inds loss Hloss) as [x [Hlen Hplot]].
  exists x. split; [assumption|].
  unfold error_panel, n_plots. rewrite Hloss. simpl.
  now rewrite Hplot.
Qed.

Lemma error_panel_always_drawn_irregular :
  loss_curve_ irregular_loss = Some (map of_Z [5; 4; 3; 2; 1]%Z) /\
  exists x,
    List.length x = 5 /\
    error_panel irregular_loss true (n_plots irregular_loss)
      [Axes 0; Axes 1] (NdArray (arange 8))
    = ([(1, SetXLabel "training time (min)");
        (1, Plot x (map of_Z [5; 4; 3; 2; 1]%Z) None None);
        (1, SetTitle "Training Error");
        (1, SetYScale "log")], inr tt).
Proof.
  split; [reflexivity|].
  exact (error_panel_always_drawn irregular_loss true (Axes 0) 1 []
           (NdArray (arange 8)) (map of_Z [5; 4; 3; 2; 1]%Z) eq_refl).
Defined.

(** Without a usable stride the x-axis is not consulted: when
    [show_loss_every] is missing or zero the loss curve is drawn against
    its indices [0..len-1], also under the wall-clock basis and also when
    the x-axis has exactly the length of the loss curve. *)
Theorem loss_without_stride_uses_indices ssvm ax inds loss :
  loss_curve_ ssvm = Some loss ->
  show_loss_every ssvm = None \/ show_loss_every ssvm = Some 0%Z ->
  plot_loss ssvm ax inds
  = emit (ax, Plot (arange (List.length loss)) loss None None).
Proof.
  intros Hloss [Hk | Hk]; unfold plot_loss; rewrite Hloss, Hk.
  - reflexivity.
  - now destruct inds.
Qed.

Lemma loss_without_stride_uses_indices_no_stride :
  loss_curve_ no_stride = Some (map of_Z [3; 2; 1]%Z) /\
  show_loss_every no_stride = None /\
  plot_loss no_stride 1 (NdArray (minutes (map of_Z [0; 10; 70; 130]%Z)))
  = emit (1, Plot (map of_Z [0; 1; 2]%Z) (map of_Z [3; 2; 1]%Z) None None).
Proof.
  split; [reflexivity | split; [reflexivity|]].
  exact (loss_without_stride_uses_indices no_stride 1
           (NdArray (minutes (map of_Z [0; 10; 70; 130]%Z)))
           (map of_Z [3; 2; 1]%Z) eq_refl (or_introl eq_refl)).
Defined.

(** ** Complete runs (lines 66-130) *)

(** The run of a learner whose axis is synthesised from a non-empty dual
    curve, up to the two panels. *)
Lemma plot_learning_from_dual ssvm0 time ax rest prefix dual ts :
  iterations_ (unwrap ssvm0) = None ->
  dual_objective_curve_ (unwrap ssvm0) = Some dual ->
  dual <> [] ->
  (time = true -> timestamps_ (unwrap ssvm0) = Some ts) ->
  plot_learning ssvm0 time (AxesList (Axes ax :: rest)) prefix
  = (emit (ax, SetXLabel (time_label time)) ;;;
     objective_panel (unwrap ssvm0) ax prefix
       (NdArray (if time then minutes ts else arange (List.length dual)))
       (inference_run (unwrap ssvm0)) ;;;
     error_panel (unwrap ssvm0) time (n_plots (unwrap ssvm0))
       (Axes ax :: rest)
       (NdArray (if time then minutes ts else arange (List.length dual))) ;;;
     ret (Axes ax :: rest)).
Proof.
  intros Hit Hdual Hne Hts. unfold plot_learning, iteration_axis.
  rewrite Hit, Hdual.
  destruct (last_item_nonempty dual Hne) as [l ->]. rewrite !bind_ret_l.
  assert (Hmax : exists m, np_max (arange (List.length dual)) = ret m).
  { apply np_max_nonempty. destruct dual; [contradiction | discriminate]. }
  destruct Hmax as [m Hmax]. cbn [items]. rewrite Hmax, bind_ret_l.
  cbv zeta. cbn [resolve_axes]. unfold x_axis.
  destruct time.
  - rewrite (Hts eq_refl). cbn [getattr axes_method nth_error].
    rewrite !bind_ret_l, bind_assoc. cbv beta.
    now rewrite !bind_ret_l.
  - cbn [axes_method nth_error]. rewrite !bind_ret_l, bind_assoc. cbv beta.
    now rewrite !bind_ret_l.
Qed.

Lemma plot_inference_runs_aligned ssvm ax prefix x dual primal mask :
  dual_objective_curve_ ssvm = Some dual ->
  primal_objective_curve_ ssvm = Some primal ->
  List.length x = List.length dual ->
  List.length primal = List.length dual ->
  (forall run, mask = Some run -> List.length dual <= List.length run) ->
  plot_inference_runs ssvm ax prefix (NdArray x) mask
  = (overlay_events ax prefix x dual primal mask, inr tt).
Proof.
  intros Hdual Hprimal Hx Hp Hlong.
  destruct mask as [run|]; [|reflexivity].
  specialize (Hlong run eq_refl).
  unfold plot_inference_runs, truncate_mask, overlay_events.
  rewrite Hdual, Hprimal. simpl getattr. rewrite !bind_ret_l.
  set (m := firstn (List.length dual) run).
  assert (Hm : List.length m = List.length dual).
  { unfold m. rewrite length_firstn. now apply Nat.min_l. }
  unfold mask_index_seq, mask_index.
  rewrite (proj2 (Nat.eqb_eq _ _) (eq_trans Hm (eq_sym Hx))), !bind_ret_l.
  rewrite (proj2 (Nat.eqb_eq _ _) (eq_trans Hm (eq_sym Hp))), bind_ret_l.
  apply plot_equal_lengths, length_compress; congruence.
Qed.

Lemma objective_panel_aligned ssvm ax prefix x dual primal mask :
  dual_objective_curve_ ssvm = Some dual ->
  primal_objective_curve_ ssvm = Some primal ->
  List.length x = List.length dual ->
  List.length primal = List.length dual ->
  (forall run, mask = Some run -> List.length dual <= List.length run) ->
  objective_panel ssvm ax prefix (NdArray x) mask
  = (objective_events ax prefix x dual primal mask, inr tt).
Proof.
  intros Hdual Hprimal Hx Hp Hlong.
  unfold objective_panel, plot_dual, plot_primal.
  rewrite (plot_inference_runs_aligned ssvm ax prefix x dual primal mask)
    by assumption.
  rewrite Hdual, Hprimal. cbn [items].
  rewrite !plot_equal_lengths by congruence.
  reflexivity.
Qed.

(** A learner with a dual and a primal curve of the same, non-zero length
    and no loss curve is plotted in full, under either time basis: the
    x-label, the title, the dashed dual line on a log scale, the solid
    primal line, the markers of the inference runs when constraints were
    cached (for flags at least as long as the curves), and the legend; the
    run returns the axes it was given.  Under the wall-clock basis this
    needs exactly one timestamp more than there are steps. *)
Theorem standard_learner_drawn ssvm0 time ax rest prefix dual primal ts :
  iterations_ (unwrap ssvm0) = None ->
  dual_objective_curve_ (unwrap ssvm0) = Some dual ->
  dual <> [] ->
  primal_objective_curve_ (unwrap ssvm0) = Some primal ->
  List.length primal = List.length dual ->
  (forall run, inference_run (unwrap ssvm0) = Some run ->
               List.length dual <= List.length run) ->
  (time = true ->
   timestamps_ (unwrap ssvm0) = Some ts /\
   List.length ts = S (List.length dual)) ->
  loss_curve_ (unwrap ssvm0) = None ->
  plot_learning ssvm0 time (AxesList (Axes ax :: rest)) prefix
  = ((ax, SetXLabel (time_label time))
     :: objective_events ax prefix
          (if time then minutes ts else arange (List.length dual))
          dual primal (inference_run (unwrap ssvm0)),
     inr (Axes ax :: rest)).
Proof.
  intros Hit Hdual Hne Hprimal Hp Hlong Hts Hloss.
  rewrite (plot_learning_from_dual ssvm0 time ax rest prefix dual ts)
    by (assumption || (intro Ht; apply (Hts Ht))).
  assert (Hx : List.length
                 (if time then minutes ts else arange (List.length dual))
               = List.length dual).
  { destruct time; [|apply length_arange].
    rewrite length_minutes. destruct (Hts eq_refl) as [_ ->].
    simpl. apply Nat.sub_0_r. }
  rewrite (objective_panel_aligned (unwrap ssvm0) ax prefix
             (if time then minutes ts else arange (List.length dual))
             dual primal) by assumption.
  unfold error_panel, n_plots. rewrite Hloss. simpl.
  now rewrite app_nil_r.
Qed.

(** The learner of dual and primal curves under the wall clock. *)
Lemma standard_learner_drawn_plain :
  dual_objective_curve_ (unwrap plain) = Some (map of_Z [10; 8; 6]%Z) /\
  timestamps_ (unwrap plain) = Some (map of_Z [0; 10; 70; 130]%Z) /\
  plot_learning plain true (AxesList [Axes 0]) "run "
  = ([(0, SetXLabel "training time (min)");
      (0, SetTitle "Objective");
      (0, Plot (minutes (map of_Z [0; 10; 70; 130]%Z))
            (map of_Z [10; 8; 6]%Z) (Some "--") (Some "run dual objective"));
      (0, SetYScale "log");
      (0, Plot (minutes (map of_Z [0; 10; 70; 130]%Z))
            (map of_Z [20; 15; 11]%Z) None (Some "run primal objective"));
      (0, Legend "best")],
     inr [Axes 0]).
Proof.
  split; [reflexivity | split; [reflexivity|]].
  refine (standard_learner_drawn plain true 0 [] "run "
            (map of_Z [10; 8; 6]%Z) (map of_Z [20; 15; 11]%Z)
            (map of_Z [0; 10; 70; 130]%Z)
            eq_refl eq_refl _ eq_refl eq_refl _ _ eq_refl).
  - discriminate.
  - discriminate.
  - intros _. split; reflexivity.
Defined.

(** The error panel is reached by handing [plot_learning] a list of two
    Axes objects: the learner of [standard_learner_drawn] with a loss curve
    is then plotted in full on both, the objective panel on the first and
    the training error on the second. *)
Theorem two_panels_drawn ssvm0 time ax ax' rest prefix dual primal ts loss :
  iterations_ (unwrap ssvm0) = None ->
  dual_objective_curve_ (unwrap ssvm0) = Some dual ->
  dual <> [] ->
  primal_objective_curve_ (unwrap ssvm0) = Some primal ->
  List.length primal = List.length dual ->
  (forall run, inference_run (unwrap ssvm0) = Some run ->
               List.length dual <= List.length run) ->
  (time = true ->
   timestamps_ (unwrap ssvm0) = Some ts /\
   List.length ts = S (List.length dual)) ->
  loss_curve_ (unwrap ssvm0) = Some loss ->
  exists x,
    List.length x = List.length loss /\
    plot_learning ssvm0 time (AxesList (Axes ax :: Axes ax' :: rest)) prefix
    = ((ax, SetXLabel (time_label time))
       :: objective_events ax prefix
            (if time then minutes ts else arange (List.length dual))
            dual primal (inference_run (unwrap ssvm0))
       ++ [(ax', SetXLabel (time_label time));
           (ax', Plot x loss None None);
           (ax', SetTitle "Training Error");
           (ax', SetYScale "log")],
       inr (Axes ax :: Axes ax' :: rest)).
Proof.
  intros Hit Hdual Hne Hprimal Hp Hlong Hts Hloss.
  destruct (plot_loss_total (unwrap ssvm0) ax'
              (NdArray (if time then minutes ts else arange (List.length dual)))
              loss Hloss) as [x [Hlen Hplot]].
  exists x. split; [assumption|].
  rewrite (plot_learning_from_dual ssvm0 time ax (Axes ax' :: rest) prefix
             dual ts)
    by (assumption || (intro Ht; apply (Hts Ht))).
  assert (Hx : List.length
                 (if time then minutes ts else arange (List.length dual))
               = List.length dual).
  { destruct time; [|apply length_arange].
    rewrite length_minutes. destruct (Hts eq_refl) as [_ ->].
    simpl. apply Nat.sub_0_r. }
  rewrite (objective_panel_aligned (unwrap ssvm0) ax prefix
             (if time then minutes ts else arange (List.length dual))
             dual primal) by assumption.
  unfold error_panel, n_plots. rewrite Hloss. simpl.
  now rewrite Hplot.
Qed.

Lemma two_panels_drawn_with_loss :
  loss_curve_ (unwrap with_loss) = Some (map of_Z [3; 2; 1]%Z) /\
  exists x,
    List.length x = 3 /\
    plot_learning with_loss false (AxesList [Axes 0; Axes 1]) ""
    = ((0, SetXLabel "Passes through training data")
       :: objective_events 0 "" (arange 3) (map of_Z [10; 8; 6]%Z)
            (map of_Z [20; 15; 11]%Z) None
       ++ [(1, SetXLabel "Passes through training data");
           (1, Plot x (map of_Z [3; 2; 1]%Z) None None);
           (1, SetTitle "Training Error");
           (1, SetYScale "log")],
       inr [Axes 0; Axes 1]).
Proof.
  split; [reflexivity|].
  refine (two_panels_drawn with_loss false 0 1 [] ""
            (map of_Z [10; 8; 6]%Z) (map of_Z [20; 15; 11]%Z) []
            (map of_Z [3; 2; 1]%Z)
            eq_refl eq_refl _ eq_refl eq_refl _ _ eq_refl);
    discriminate.
Defined.

(** ** Curves of unequal length (lines 95-115) *)

(** Under the wall-clock basis the timestamps must number exactly one more
    than the steps of the dual curve: with any other count the run sets the
    x-label and the title and then ends in the [ValueError] of the first
    plot call, with no curve drawn. *)
Theorem timestamp_count_mismatch_raises ssvm0 ax rest prefix dual ts :
  iterations_ (unwrap ssvm0) = None ->
  dual_objective_curve_ (unwrap ssvm0) = Some dual ->
  dual <> [] ->
  timestamps_ (unwrap ssvm0) = Some ts ->
  List.length ts <> S (List.length dual) ->
  plot_learning ssvm0 true (AxesList (Axes ax :: rest)) prefix
  = ([(ax, SetXLabel "training time (min)"); (ax, SetTitle "Objective")],
     inl ValueError).
Proof.
  intros Hit Hdual Hne Hts Hcount.
  rewrite (plot_learning_from_dual ssvm0 true ax rest prefix dual ts)
    by (assumption || (intros _; assumption)).
  unfold objective_panel, plot_dual. rewrite Hdual. cbn [items].
  rewrite plot_unequal_lengths; [reflexivity|].
  rewrite length_minutes. intro E.
  destruct ts as [|t ts]; simpl in *.
  - destruct dual; [contradiction | discriminate].
  - rewrite Nat.sub_0_r in E. congruence.
Qed.

(** As many timestamps as steps: the start marker is missing. *)
Lemma timestamp_count_mismatch_raises_timed :
  timestamps_ (unwrap (timed [10; 70; 130]%Z)) = Some (map of_Z [10; 70; 130]%Z) /\
  List.length (map of_Z [10; 70; 130]%Z) <> 4 /\
  plot_learning (timed [10; 70; 130]%Z) true (AxesList [Axes 0]) ""
  = ([(0, SetXLabel "training time (min)"); (0, SetTitle "Objective")],
     inl ValueError).
Proof.
  split; [reflexivity | split; [discriminate|]].
  refine (timestamp_count_mismatch_raises (timed [10; 70; 130]%Z) 0 [] ""
            (map of_Z [10; 8; 6]%Z) (map of_Z [10; 70; 130]%Z)
            eq_refl eq_refl _ eq_refl _);
    discriminate.
Defined.

(** The mask is cut to the dual curve but never padded: with cached
    constraints flagged for fewer steps than the curves have, the run draws
    the dual and the "cached" primal line and then ends in the
    [IndexError] of the boolean index, without markers and without
    legend. *)
Theorem short_flags_raise ssvm0 time ax rest prefix dual primal ts flags :
  iterations_ (unwrap ssvm0) = None ->
  dual_objective_curve_ (unwrap ssvm0) = Some dual ->
  dual <> [] ->
  primal_objective_curve_ (unwrap ssvm0) = Some primal ->
  List.length primal = List.length dual ->
  cached_constraint_ (unwrap ssvm0) = Some flags ->
  np_any flags = true ->
  List.length flags < List.length dual ->
  (time = true ->
   timestamps_ (unwrap ssvm0) = Some ts /\
   List.length ts = S (List.length dual)) ->
  plot_learning ssvm0 time (AxesList (Axes ax :: rest)) prefix
  = ([(ax, SetXLabel (time_label time));
      (ax, SetTitle "Objective");
      (ax, Plot (if time then minutes ts else arange (List.length dual)) dual
             (Some "--") (Some (prefix ++ "dual objective")%string));
      (ax, SetYScale "log");
      (ax, Plot (if time then minutes ts else arange (List.length dual)) primal
             None (Some (prefix ++ "cached primal objective")%string))],
     inl IndexError).
Proof.
  intros Hit Hdual Hne Hprimal Hp Hflags Hany Hshort Hts.
  rewrite (plot_learning_from_dual ssvm0 time ax rest prefix dual ts)
    by (assumption || (intro Ht; apply (Hts Ht))).
  set (x := if time then minutes ts else arange (List.length dual)).
  assert (Hx : List.length x = List.length dual).
  { unfold x. destruct time; [|apply length_arange].
    rewrite length_minutes. destruct (Hts eq_refl) as [_ ->].
    simpl. apply Nat.sub_0_r. }
  unfold objective_panel, plot_dual, plot_primal, inference_run.
  rewrite Hdual, Hprimal, Hflags, Hany. cbn [items primal_label].
  rewrite !plot_equal_lengths by congruence.
  unfold plot_inference_runs, truncate_mask. rewrite Hdual.
  simpl getattr. rewrite !bind_ret_l.
  unfold mask_index_seq, mask_index.
  assert (Hm : Nat.eqb (List.length (firstn (List.length dual) (invert flags)))
                 (List.length x) = false).
  { apply Nat.eqb_neq. unfold invert.
    rewrite length_firstn, length_map, Hx. lia. }
  rewrite Hm. reflexivity.
Qed.

Lemma short_flags_raise_one_flag :
  cached_constraint_ (unwrap short_flags) = Some [true] /\
  np_any [true] = true /\
  1 < 3 /\
  plot_learning short_flags false (AxesList [Axes 0]) ""
  = ([(0, SetXLabel "Passes through training data");
      (0, SetTitle "Objective");
      (0, Plot (arange 3) (map of_Z [10; 8; 6]%Z)
            (Some "--") (Some "dual objective"));
      (0, SetYScale "log");
      (0, Plot (arange 3) (map of_Z [20; 15; 11]%Z)
            None (Some "cached primal objective"))],
     inl IndexError).
Proof.
  split; [reflexivity | split; [reflexivity | split; [lia|]]].
  refine (short_flags_raise short_flags false 0 [] ""
            (map of_Z [10; 8; 6]%Z) (map of_Z [20; 15; 11]%Z) [] [true]
            eq_refl eq_refl _ eq_refl eq_refl eq_refl eq_refl _ _).
  - discriminate.
  - simpl. lia.
  - discriminate.
Defined.

(** ** Which Axes objects a run touches (lines 90-130) *)

Lemma axes_method_value (axes : list pyobj) (i : nat) (method : string)
    (p : nat) :
  outcome (axes_method axes i method) = inr p ->
  nth_error axes i = Some (Axes p).
Proof.
  unfold axes_method.
  destruct (nth_error axes i) as [[q | qs]|]; try discriminate.
  intro H. injection H as ->. reflexivity.
Qed.

Lemma emits_only_weaken {A} (P Q : event -> Prop) (m : M A) :
  (forall ev, P ev -> Q ev) -> emits_only P m -> emits_only Q m.
Proof.
  unfold emits_only. intros H Hm. now apply (Forall_impl Q H).
Qed.

Lemma objective_panel_on_one_axes ssvm ax prefix inds mask :
  emits_only (fun ev => fst ev = ax) (objective_panel ssvm ax prefix inds mask).
Proof.
  assert (Hemit : forall c, emits_only (fun ev => fst ev = ax) (emit (ax, c)))
    by (intro c; now apply emits_only_emit).
  assert (Hplot : forall x y fmt label,
             emits_only (fun ev => fst ev = ax) (plot ax x y fmt label))
    by (intros; now apply emits_only_plot).
  unfold objective_panel. repeat emits_step; try apply Hemit.
  - unfold plot_dual. destruct (dual_objective_curve_ ssvm);
      repeat emits_step; [apply Hplot | apply Hemit].
  - unfold plot_primal. destruct (primal_objective_curve_ ssvm);
      [apply Hplot | emits_step].
  - unfold plot_inference_runs. destruct mask as [run|]; [|emits_step].
    unfold truncate_mask, mask_index_seq, mask_index.
    repeat emits_step; try apply Hplot.
    + destruct inds; [emits_step|].
      destruct (Nat.eqb _ _); emits_step.
    + destruct (Nat.eqb _ _); emits_step.
Qed.

Lemma error_panel_on_one_axes ssvm time n axes inds :
  emits_only (fun ev => nth_error axes 1 = Some (Axes (fst ev)))
    (error_panel ssvm time n axes inds).
Proof.
  unfold error_panel. destruct (Nat.eqb n 2); [|emits_step].
  apply emits_only_bind_value;
    [apply emits_only_silent, trace_axes_method | intros ax Hax].
  apply axes_method_value in Hax.
  assert (Hemit : forall c,
             emits_only (fun ev => nth_error axes 1 = Some (Axes (fst ev)))
               (emit (ax, c)))
    by (intro c; now apply emits_only_emit).
  assert (Hplot : forall x y fmt label,
             emits_only (fun ev => nth_error axes 1 = Some (Axes (fst ev)))
               (plot ax x y fmt label))
    by (intros; now apply emits_only_plot).
  repeat emits_step; solve [apply Hemit | apply Hplot].
Qed.

(** Whatever the learner and however the run ends, every call it makes
    goes to the first or to the second element of the axes list: the run
    never touches a third Axes object, and the Axes it touches are the ones
    the caller passed (or the ones created for [axes=None]). *)
Theorem draws_only_on_first_two_axes ssvm0 time axes prefix :
  Forall (on_axes (resolve_axes axes (n_plots (unwrap ssvm0))))
    (trace (plot_learning ssvm0 time axes prefix)).
Proof.
  change (emits_only (on_axes (resolve_axes axes (n_plots (unwrap ssvm0))))
            (plot_learning ssvm0 time axes prefix)).
  unfold plot_learning.
  set (ssvm := unwrap ssvm0). set (l := resolve_axes axes (n_plots ssvm)).
  apply emits_only_bind; [apply emits_only_silent, trace_iteration_axis|].
  intro iterations.
  apply emits_only_bind; [apply emits_only_silent, trace_np_max|]. intros _.
  assert (Hlabel : forall s,
             emits_only (on_axes l)
               (ax <- axes_method l 0 "set_xlabel" ;;
                emit (ax, SetXLabel s) ;;; ret iterations) /\
             forall inds : pyseq,
               emits_only (on_axes l)
                 (ax <- axes_method l 0 "set_xlabel" ;;
                  emit (ax, SetXLabel s) ;;; ret inds)).
  { intro s.
    assert (H : forall inds : pyseq,
               emits_only (on_axes l)
                 (ax <- axes_method l 0 "set_xlabel" ;;
                  emit (ax, SetXLabel s) ;;; ret inds)).
    { intro inds.
      apply emits_only_bind_value;
        [apply emits_only_silent, trace_axes_method | intros ax Hax].
      apply axes_method_value in Hax.
      apply emits_only_bind; [|intros _; apply emits_only_ret].
      apply emits_only_emit. now left. }
    split; [apply H | exact H]. }
  apply emits_only_bind.
  { unfold x_axis. destruct time.
    - apply emits_only_bind; [apply emits_only_getattr | intro ts].
      apply (proj2 (Hlabel _)).
    - apply (proj1 (Hlabel _)). }
  intro inds.
  apply emits_only_bind_value;
    [apply emits_only_silent, trace_axes_method | intros ax Hax].
  apply axes_method_value in Hax.
  apply emits_only_bind.
  { apply (emits_only_weaken (fun ev => fst ev = ax));
      [|apply objective_panel_on_one_axes].
    intros ev <-. now left. }
  intros _. apply emits_only_bind; [|intros _; apply emits_only_ret].
  apply (emits_only_weaken
           (fun ev => nth_error l 1 = Some (Axes (fst ev))));
    [|apply error_panel_on_one_axes].
  intros ev H. now right.
Qed.

(** ** Other sources of the x-axis (lines 70-78 and 101-110) *)

(** The run of a learner with a non-empty iteration axis, up to the two
    panels. *)
Lemma plot_learning_from_axis ssvm0 time ax rest prefix iterations ts :
  iteration_axis (unwrap ssvm0) = ret iterations ->
  items iterations <> [] ->
  (time = true -> timestamps_ (unwrap ssvm0) = Some ts) ->
  plot_learning ssvm0 time (AxesList (Axes ax :: rest)) prefix
  = (emit (ax, SetXLabel (time_label time)) ;;;
     objective_panel (unwrap ssvm0) ax prefix
       (if time then NdArray (minutes ts) else iterations)
       (inference_run (unwrap ssvm0)) ;;;
     error_panel (unwrap ssvm0) time (n_plots (unwrap ssvm0))
       (Axes ax :: rest)
       (if time then NdArray (minutes ts) else iterations) ;;;
     ret (Axes ax :: rest)).
Proof.
  intros Hit Hne Hts. unfold plot_learning.
  rewrite Hit, bind_ret_l.
  destruct (np_max_nonempty _ Hne) as [m ->]. rewrite bind_ret_l.
  cbv zeta. cbn [resolve_axes]. unfold x_axis.
  destruct time.
  - rewrite (Hts eq_refl). cbn [getattr axes_method nth_error].
    rewrite !bind_ret_l, bind_assoc. cbv beta.
    now rewrite !bind_ret_l.
  - cbn [axes_method nth_error]. rewrite !bind_ret_l, bind_assoc. cbv beta.
    now rewrite !bind_ret_l.
Qed.

(** A learner that logged the primal objective only is plotted from that
    curve: the axis is synthesised from it, the line carries the label
    prefix+"primal objective", and the panel keeps its linear scale, since
    the log scale is set only along with a dual curve. *)
Theorem primal_only_learner_drawn ssvm0 time ax rest prefix primal ts :
  iterations_ (unwrap ssvm0) = None ->
  dual_objective_curve_ (unwrap ssvm0) = None ->
  primal_objective_curve_ (unwrap ssvm0) = Some primal ->
  primal <> [] ->
  cached_constraint_ (unwrap ssvm0) = None ->
  loss_curve_ (unwrap ssvm0) = None ->
  (time = true ->
   timestamps_ (unwrap ssvm0) = Some ts /\
   List.length ts = S (List.length primal)) ->
  plot_learning ssvm0 time (AxesList (Axes ax :: rest)) prefix
  = ([(ax, SetXLabel (time_label time));
      (ax, SetTitle "Objective");
      (ax, Plot (if time then minutes ts else arange (List.length primal))
             primal None (Some (prefix ++ "primal objective")%string));
      (ax, Legend "best")],
     inr (Axes ax :: rest)).
Proof.
  intros Hit Hdual Hprimal Hne Hflags Hloss Hts.
  assert (Haxis : iteration_axis (unwrap ssvm0)
                  = ret (NdArray (arange (List.length primal)))).
  { unfold iteration_axis. rewrite Hit, Hdual, Hprimal. simpl getattr.
    rewrite bind_ret_l.
    destruct (last_item_nonempty primal Hne) as [l ->]. reflexivity. }
  rewrite (plot_learning_from_axis ssvm0 time ax rest prefix _ ts Haxis);
    [| destruct primal; [contradiction | discriminate]
     | intro Ht; apply (Hts Ht)].
  assert (Hx : List.length
                 (if time then minutes ts else arange (List.length primal))
               = List.length primal).
  { destruct time; [|apply length_arange].
    rewrite length_minutes. destruct (Hts eq_refl) as [_ ->].
    simpl. apply Nat.sub_0_r. }
  unfold objective_panel, plot_dual, plot_primal, inference_run,
    error_panel, n_plots.
  rewrite Hdual, Hprimal, Hflags, Hloss.
  destruct time; cbn [items primal_label plot_inference_runs hasattr];
    rewrite plot_equal_lengths by assumption; reflexivity.
Qed.

Lemma primal_only_learner_drawn_primal_curve :
  dual_objective_curve_ (unwrap primal_curve) = None /\
  primal_objective_curve_ (unwrap primal_curve)
  = Some (map of_Z [20; 15; 11]%Z) /\
  plot_learning primal_curve false (AxesList [Axes 0]) ""
  = ([(0, SetXLabel "Passes through training data");
      (0, SetTitle "Objective");
      (0, Plot (arange 3) (map of_Z [20; 15; 11]%Z) None
            (Some "primal objective"));
      (0, Legend "best")],
     inr [Axes 0]).
Proof.
  split; [reflexivity | split; [reflexivity|]].
  refine (primal_only_learner_drawn primal_curve false 0 [] ""
            (map of_Z [20; 15; 11]%Z) []
            eq_refl eq_refl eq_refl _ eq_refl eq_refl _);
    discriminate.
Defined.

(** Under the iteration basis a logged [iterations_] attribute is the
    x-axis as it stands: the dual curve is drawn against the logged values,
    not against [0..len-1], and needs exactly as many entries as were
    logged. *)
Theorem logged_iterations_are_the_axis ssvm0 ax rest prefix iterations dual :
  iterations_ (unwrap ssvm0) = Some iterations ->
  dual_objective_curve_ (unwrap ssvm0) = Some dual ->
  dual <> [] ->
  primal_objective_curve_ (unwrap ssvm0) = None ->
  cached_constraint_ (unwrap ssvm0) = None ->
  loss_curve_ (unwrap ssvm0) = None ->
  (List.length (items iterations) = List.length dual ->
   plot_learning ssvm0 false (AxesList (Axes ax :: rest)) prefix
   = ([(ax, SetXLabel "Passes through training data");
       (ax, SetTitle "Objective");
       (ax, Plot (items iterations) dual (Some "--")
              (Some (prefix ++ "dual objective")%string));
       (ax, SetYScale "log");
       (ax, Legend "best")],
      inr (Axes ax :: rest))) /\
  (items iterations <> [] ->
   List.length (items iterations) <> List.length dual ->
   plot_learning ssvm0 false (AxesList (Axes ax :: rest)) prefix
   = ([(ax, SetXLabel "Passes through training data");
       (ax, SetTitle "Objective")],
      inl ValueError)).
Proof.
  intros Hit Hdual Hne Hprimal Hflags Hloss.
  assert (Haxis : iteration_axis (unwrap ssvm0) = ret iterations).
  { unfold iteration_axis. now rewrite Hit. }
  split.
  - intro Hlen.
    rewrite (plot_learning_from_axis ssvm0 false ax rest prefix iterations []
               Haxis);
      [| intro E; rewrite E in Hlen; destruct dual;
         [contradiction | discriminate]
       | discriminate].
    unfold objective_panel, plot_dual, plot_primal, inference_run,
      error_panel, n_plots.
    rewrite Hdual, Hprimal, Hflags, Hloss.
    rewrite plot_equal_lengths by assumption. reflexivity.
  - intros Hne' Hlen.
    rewrite (plot_learning_from_axis ssvm0 false ax rest prefix iterations []
               Haxis); [| assumption | discriminate].
    unfold objective_panel, plot_dual. rewrite Hdual.
    rewrite plot_unequal_lengths by assumption. reflexivity.
Qed.

Lemma logged_iterations_are_the_axis_warm_started :
  iterations_ (unwrap warm_started) = Some (NdArray (map of_Z [5; 7; 9]%Z)) /\
  plot_learning warm_started false (AxesList [Axes 0]) ""
  = ([(0, SetXLabel "Passes through training data");
      (0, SetTitle "Objective");
      (0, Plot (map of_Z [5; 7; 9]%Z) (map of_Z [10; 8; 6]%Z) (Some "--")
            (Some "dual objective"));
      (0, SetYScale "log");
      (0, Legend "best")],
     inr [Axes 0]).
Proof.
  split; [reflexivity|].
  refine (proj1 (logged_iterations_are_the_axis warm_started 0 [] ""
                   (NdArray (map of_Z [5; 7; 9]%Z)) (map of_Z [10; 8; 6]%Z)
                   eq_refl eq_refl _ eq_refl eq_refl eq_refl) eq_refl).
  discriminate.
Defined.
